(** * Tenant creation form and organization discovery assigner

    A shallow embedding of the two React components of
    [features/admin.tenants.v1/components/add-tenant/add-tenant-form.tsx]:

    - [AddTenantForm]: the per-field validators, the submit-time
      validation and the construction of the create-tenant payload;
    - [AddOrganizationDiscoveryDomains]: the paginated organization
      loader, the email-domain multi-value validator and the submit
      handler.

    JavaScript values are embedded by the small universe [Js.val];
    asynchronous functions are embedded as resumptions that stop at each
    remote call and are resumed with the way the call settled. *)

From Stdlib Require Import ZArith Ascii String List Bool Lia.
From stdpp Require Import base option list strings gmap.

Set Warnings "-register-all,-clear-no-such-hyp".

Open Scope string_scope.
Open Scope Z_scope.
Open Scope list_scope.

(* ===================================================================== *)
(** * JavaScript values and strings *)
(* ===================================================================== *)

Module Js.

(** The values the two components handle.  An object is its list of
    own properties in insertion order; the operations below keep the
    keys of an object distinct. *)
Inductive val : Type :=
| Undefined
| Null
| Bool (b : bool)
| Str (s : string)
| Arr (elems : list val)
| Obj (props : list (string * val)).

(** [ToBoolean]: the test behind [!v], [v ? a : b], [v || w]. *)
Definition truthy (v : val) : bool :=
  match v with
  | Undefined | Null => false
  | Bool b => b
  | Str s => negb (String.eqb s "")
  | Arr _ | Obj _ => true
  end.

(** [v || w] *)
Definition or (v w : val) : val := if truthy v then v else w.

(** [v ?? w] *)
Definition coalesce (v w : val) : val :=
  match v with
  | Undefined | Null => w
  | _ => v
  end.

(** Property lookup in a property list: the first binding of [k]. *)
Fixpoint lookup (k : string) (props : list (string * val)) : option val :=
  match props with
  | [] => None
  | (k', v) :: rest => if String.eqb k k' then Some v else lookup k rest
  end.

(** [v?.k]: [undefined] on [undefined] and [null], the property on an
    object, [undefined] when the property is missing (the primitives
    and arrays met here have none of the properties that are read). *)
Definition get (k : string) (v : val) : val :=
  match v with
  | Obj props => default Undefined (lookup k props)
  | _ => Undefined
  end.

(** [{ ...props, k: v }]: an existing key keeps its place and takes
    the new value, a new key goes last. *)
Fixpoint set (k : string) (v : val) (props : list (string * val))
  : list (string * val) :=
  match props with
  | [] => [(k, v)]
  | (k', v') :: rest =>
      if String.eqb k k' then (k, v) :: rest else (k', v') :: set k v rest
  end.

(** The rest of an object pattern: every property but [k]. *)
Fixpoint remove (k : string) (props : list (string * val))
  : list (string * val) :=
  match props with
  | [] => []
  | (k', v') :: rest =>
      if String.eqb k k' then remove k rest else (k', v') :: remove k rest
  end.

Definition keys (props : list (string * val)) : list string :=
  map fst props.

(** lodash [isEmpty]: nullish values and primitives other than strings
    are empty; strings and arrays are empty when their length is 0;
    objects when they have no own property. *)
Definition isEmpty (v : val) : bool :=
  match v with
  | Undefined | Null | Bool _ => true
  | Str s => String.eqb s ""
  | Arr l => match l with [] => true | _ => false end
  | Obj ps => match ps with [] => true | _ => false end
  end.

(** ** Strings

    Strings are sequences of code units; the characters the code looks
    for (the dot, the text [after=]) are ASCII, so positions computed
    here on bytes name the same characters as in the source. *)

(** [s.indexOf(needle)], scanning from position [i]. *)
Fixpoint indexOf_from (needle s : string) (i : Z) : Z :=
  if String.prefix needle s then i
  else match s with
       | EmptyString => -1
       | String _ s' => indexOf_from needle s' (i + 1)
       end.

Definition indexOf (s needle : string) : Z := indexOf_from needle s 0.

(** [s.lastIndexOf(needle)]: the greatest matching position. *)
Fixpoint lastIndexOf_from (needle s : string) (i : Z) : Z :=
  match s with
  | EmptyString => if String.prefix needle s then i else -1
  | String _ s' =>
      let later := lastIndexOf_from needle s' (i + 1) in
      if 0 <=? later then later
      else if String.prefix needle s then i else -1
  end.

Definition lastIndexOf (s needle : string) : Z := lastIndexOf_from needle s 0.

(** [s.split(sep)] for a non-empty separator: cut at every occurrence
    of [sep], left to right, occurrences not overlapping.  [skip]
    counts the characters of a matched separator still to drop and
    [piece] is the current piece, reversed. *)
Fixpoint split_go (sep s : string) (skip : nat) (piece : list ascii)
  : list string :=
  match s with
  | EmptyString => [string_of_list_ascii (rev piece)]
  | String c s' =>
      match skip with
      | S n => split_go sep s' n piece
      | O =>
          if String.prefix sep s
          then string_of_list_ascii (rev piece)
                 :: split_go sep s' (Nat.pred (String.length sep)) []
          else split_go sep s' O (c :: piece)
      end
  end.

Definition split (s sep : string) : list string := split_go sep s O [].

(** [arr[i]] on an array of strings: [undefined] out of range. *)
Definition index (arr : list string) (i : nat) : val :=
  match arr !! i with
  | Some s => Str s
  | None => Undefined
  end.

(** [arr[arr.length - 1]]: [undefined] on the empty array. *)
Definition lastElement (arr : list string) : val :=
  match last arr with
  | Some s => Str s
  | None => Undefined
  end.

(** [arr.pop()], as the array it leaves: the empty array stays empty. *)
Definition pop (arr : list string) : list string := removelast arr.

(** [s === v] for a string [s]. *)
Definition strictEqualsString (s : string) (v : val) : bool :=
  match v with
  | Str s' => String.eqb s s'
  | _ => false
  end.

End Js.

(* ===================================================================== *)
(** * Asynchronous functions *)
(* ===================================================================== *)

Module Async.

(** How an awaited remote call settles.  The code never looks at the
    reason of a rejection, so none is kept. *)
Inductive Settled (R : Type) : Type :=
| Fulfilled (r : R)
| Rejected.
Arguments Fulfilled {R} r.
Arguments Rejected {R}.

(** The promise returned by an [async] function that touches no
    component state: it has resolved, it has rejected, or it is waiting
    at an [await] for a remote call [c] and goes on with [k] once the
    call has settled.  [Call R] is the family of remote calls whose
    fulfilment value has type [R]. *)
Inductive Promise (Call : Type -> Type) (A : Type) : Type :=
| Resolve (a : A)
| Reject
| Await {R : Type} (c : Call R) (k : Settled R -> Promise Call A).
Arguments Resolve {Call A} a.
Arguments Reject {Call A}.
Arguments Await {Call A R} c k.

(** A remote call together with the type of its answer. *)
Inductive Invocation (Call : Type -> Type) : Type :=
| Invoked {R : Type} (c : Call R).
Arguments Invoked {Call R} c.

(** Runs a promise to the end against the backend [backend], which says
    how each call settles; returns how the promise settles and the
    remote calls made, in order. *)
Fixpoint settle {Call A} (backend : forall R, Call R -> Settled R)
    (p : Promise Call A) : Settled A * list (Invocation Call) :=
  match p with
  | Resolve a => (Fulfilled a, [])
  | Reject => (Rejected, [])
  | Await c k =>
      let (r, calls) := settle backend (k (backend _ c)) in
      (r, Invoked c :: calls)
  end.

(** lodash [memoize] (a library outside these sources) with the
    default resolver, around an [async] function: the cache is keyed by
    the first argument and keeps the promise the function returned.  A
    promise is an object that settles once.  The promise made at the
    first call for a key runs then, against the backend of that time,
    and the cache keeps it, here by the way it settles.  A later call
    for the key is handed that same promise: the function does not run
    again, no remote call is made, and the answer is the first one,
    whatever the backend would answer by then.  The result is how the
    promise handed out settles, the remote calls this call has caused,
    and the cache after the call. *)
Definition memoize {Call A} (func : string -> Promise Call A)
    (backend : forall R, Call R -> Settled R)
    (cache : gmap string (Settled A)) (key : string)
  : Settled A * list (Invocation Call) * gmap string (Settled A) :=
  match cache !! key with
  | Some outcome => (outcome, [], cache)
  | None =>
      let (outcome, calls) := settle backend (func key) in
      (outcome, calls, <[key := outcome]> cache)
  end.

(** Every promise in the cache is one the wrapped function made for
    its key, settled against the backend of some time. *)
Definition cache_of {Call A} (func : string -> Promise Call A)
    (cache : gmap string (Settled A)) : Prop :=
  forall key outcome,
    cache !! key = Some outcome ->
    exists backend : forall R, Call R -> Settled R,
      outcome = fst (settle backend (func key)).

End Async.

(* ===================================================================== *)
(** * AddTenantForm *)
(* ===================================================================== *)

Module AddTenantForm.
Import Async.

(** The remote calls of the form. *)
Inductive Call : Type -> Type :=
| getUsertoreUsernameValidationPattern : Call string
| getTenantDomainAvailability (domain : string) : Call bool.

(** The configuration read from the store by the selectors; a selector
    gives [undefined] ([None]) when the deployment does not configure
    the entry. *)
Record Config : Type := {
  tenantDomainRegex : option string;
  tenantDomainIllegalCharactersRegex : option string;
  isTenantDomainDotExtensionMandatory : option bool
}.

(** Truthiness of [string | undefined] and [boolean | undefined]. *)
Definition configured (pattern : option string) : option string :=
  match pattern with
  | Some p => if String.eqb p "" then None else Some p
  | None => None
  end.

Definition enabled (flag : option bool) : bool := default false flag.

Section Form.

(** Collaborators that live outside these sources. *)

(** [t]: the translation of a message key. *)
Variable t : string -> string.
(** [new RegExp(pattern).test(input)], for the well-formed patterns of
    the deployment configuration. *)
Variable RegExp_test : string -> string -> bool.
(** [FormValidation.email]. *)
Variable FormValidation_email : Js.val -> bool.
(** [SharedUserStoreUtils.validateInputAgainstRegEx(input, regex)]. *)
Variable validateInputAgainstRegEx : string -> string -> bool.
(** [TenantConstants.ORGANIZATION_NAME_REGEX]. *)
Variable ORGANIZATION_NAME_REGEX : string.
(** [TenantStatus.INLINE_PASSWORD]. *)
Variable INLINE_PASSWORD : string.

Variable config : Config.

(** An awaited call outside of any [try]: a rejection rejects the
    promise of the function that awaits. *)
Definition await {A R} (c : Call R) (k : R -> Promise Call A)
  : Promise Call A :=
  Await c (fun r => match r with Fulfilled x => k x | Rejected => Reject end).

Definition validateUsernameAgainstUserstoreRegExp (value : string)
  : Promise Call (option string) :=
  if negb (Js.truthy (Js.Str value)) then Resolve None
  else
    await getUsertoreUsernameValidationPattern (fun userRegex =>
      if negb (validateInputAgainstRegEx value userRegex)
         || negb (FormValidation_email (Js.Str value))
      then Resolve (Some (t "tenants:common.form.fields.username.validations.regExViolation"))
      else Resolve None).

(** The function wrapped by [memoize] in [validateDomain]. *)
Definition validateDomain (value : string) : Promise Call (option string) :=
  if negb (Js.truthy (Js.Str value)) then Resolve None
  else if enabled (isTenantDomainDotExtensionMandatory config)
          && (Js.lastIndexOf value "." <=? 0)
  then Resolve (Some (t "tenants:common.form.fields.domain.validations.domainMandatoryExtension"))
  else if match configured (tenantDomainRegex config) with
          | Some pattern => negb (RegExp_test pattern value)
          | None => false
          end
  then Resolve (Some (t "tenants:common.form.fields.domain.validations.domainInvalidPattern"))
  else if Js.indexOf value "." =? 0
  then Resolve (Some (t "tenants:common.form.fields.domain.validations.domainStartingWithDot"))
  else if match configured (tenantDomainIllegalCharactersRegex config) with
          | Some pattern => RegExp_test pattern value
          | None => false
          end
  then Resolve (Some (t "tenants:common.form.fields.domain.validations.domainInvalidCharPattern"))
  else
    Await (getTenantDomainAvailability value) (fun settled =>
      let isAvailable :=
        match settled with
        | Fulfilled available => available
        | Rejected => false
        end in
      if negb isAvailable
      then Resolve (Some (t "tenants:common.form.fields.domain.validations.domainUnavailable"))
      else Resolve None).

(** The function wrapped by [memoize] in [validateOrganizationName]. *)
Definition validateOrganizationName (orgName : string)
  : Promise Call (option string) :=
  if negb (Js.truthy (Js.Str orgName)) then Resolve None
  else if RegExp_test ORGANIZATION_NAME_REGEX orgName
  then Resolve (Some (t "tenants:common.form.fields.organizationName.validations.invalidCharPattern"))
  else Resolve None.

(** The validators as the fields receive them: memoized by their
    argument over a cache that lives as long as the form. *)
Definition validateDomain_memoized :=
  memoize validateDomain.

Definition validateOrganizationName_memoized :=
  memoize validateOrganizationName.

(** [handleSubmit]: the payload handed to the [onSubmit] callback.
    [values] is the property list of the form values. *)
Definition handleSubmit (values : list (string * Js.val)) : Js.val :=
  let domain := default Js.Undefined (Js.lookup "domain" values) in
  let organizationName :=
    default Js.Undefined (Js.lookup "organizationName" values) in
  let rest := Js.remove "organizationName" (Js.remove "domain" values) in
  Js.Obj [ ("domain", domain);
           ("name", organizationName);
           ("owners",
             Js.Arr [ Js.Obj (Js.set "provisioningMethod"
                                (Js.Str INLINE_PASSWORD) rest) ]) ].

(** One [if (!values.field) errors.field = t(key)] of [handleValidate]. *)
Definition required (field key : string) (values errors : list (string * Js.val))
  : list (string * Js.val) :=
  if negb (Js.truthy (Js.get field (Js.Obj values)))
  then Js.set field (Js.Str (t key)) errors
  else errors.

(** [handleValidate]: the form-level errors object. *)
Definition handleValidate (values : list (string * Js.val)) : Js.val :=
  let errors :=
    [ ("domain", Js.Undefined); ("email", Js.Undefined);
      ("firstname", Js.Undefined); ("lastname", Js.Undefined);
      ("password", Js.Undefined); ("username", Js.Undefined) ] in
  let errors :=
    required "domain" "tenants:common.form.fields.domain.validations.required"
      values errors in
  let errors :=
    required "firstname" "tenants:common.form.fields.firstname.validations.required"
      values errors in
  let errors :=
    required "lastname" "tenants:common.form.fields.lastname.validations.required"
      values errors in
  let errors :=
    if negb (Js.truthy (Js.get "email" (Js.Obj values)))
    then Js.set "email"
           (Js.Str (t "tenants:common.form.fields.email.validations.required")) errors
    else if negb (FormValidation_email (Js.get "email" (Js.Obj values)))
    then Js.set "email"
           (Js.Str (t "tenants:common.form.fields.email.validations.invalid")) errors
    else errors in
  let errors :=
    required "password" "tenants:common.form.fields.password.validations.required"
      values errors in
  let errors :=
    required "username" "tenants:common.form.fields.username.validations.required"
      values errors in
  Js.Obj errors.

(** The form accepts [values] at submit time when [handleValidate]
    leaves every entry of the errors object [undefined]. *)
Definition accepted (values : list (string * Js.val)) : bool :=
  match handleValidate values with
  | Js.Obj errors =>
      forallb (fun e => match snd e with Js.Undefined => true | _ => false end)
        errors
  | _ => false
  end.

(** The request as the specification of the data model words it, to
    compare with the payload [handleSubmit] builds: the organization
    name under [organizationName], one [owner] object with the identity
    fields of the administrator and a provisioning method. *)
Definition TenantCreationRequest (values : list (string * Js.val))
    (payload : Js.val) : Prop :=
  Js.get "domain" payload = Js.get "domain" (Js.Obj values)
  /\ Js.get "organizationName" payload
     = Js.get "organizationName" (Js.Obj values)
  /\ exists owner,
       Js.get "owner" payload = Js.Obj owner
       /\ Forall (fun k => Js.lookup k owner = Js.lookup k values)
            ["username"; "email"; "firstname"; "lastname"; "password"]
       /\ is_Some (Js.lookup "provisioningMethod" owner).

(** The four local rules of [validateDomain], taken together: [true]
    when none of them refuses [value]. *)
Definition passesLocalRules (value : string) : bool :=
  negb (enabled (isTenantDomainDotExtensionMandatory config)
        && (Js.lastIndexOf value "." <=? 0))
  && negb (match configured (tenantDomainRegex config) with
           | Some pattern => negb (RegExp_test pattern value)
           | None => false
           end)
  && negb (Js.indexOf value "." =? 0)
  && negb (match configured (tenantDomainIllegalCharactersRegex config) with
           | Some pattern => RegExp_test pattern value
           | None => false
           end).

End Form.

(** A backend on which every domain is free. *)
Definition backend_free (R : Type) (c : Call R) : Settled R :=
  match c in Call R return Settled R with
  | getUsertoreUsernameValidationPattern => Fulfilled "^[a-z@.]+$"
  | getTenantDomainAvailability _ => Fulfilled true
  end.

(** A backend that cannot be reached: every call rejects. *)
Definition backend_down (R : Type) (c : Call R) : Settled R := Rejected.

(** Sample form values, all fields filled in. *)
Definition sampleValues : list (string * Js.val) :=
  [ ("organizationName", Js.Str "Acme");
    ("domain", Js.Str "acme.com");
    ("firstname", Js.Str "Ann");
    ("lastname", Js.Str "Lee");
    ("username", Js.Str "ann@acme.com");
    ("email", Js.Str "ann@acme.com");
    ("password", Js.Str "S3cret!pass") ].

(** A stand-in for [FormValidation.email] in examples: a string with an
    [@] after its first character. *)
Definition sampleEmailCheck (v : Js.val) : bool :=
  match v with
  | Js.Str s => 0 <? Js.indexOf s "@"
  | _ => false
  end.

End AddTenantForm.

(* ===================================================================== *)
(** * AddOrganizationDiscoveryDomains *)
(* ===================================================================== *)

Module AddOrganizationDiscoveryDomains.
Import Async.

(** ** Data *)

Record Organization : Type := {
  id : string;
  name : string
}.

Record OrganizationLink : Type := {
  rel : string;
  href : string
}.

(** The page answered by the organization list endpoint; either part
    may be missing from the body. *)
Record OrganizationListResponse : Type := {
  response_organizations : option (list Organization);
  response_links : option (list OrganizationLink)
}.

Record OrganizationDiscovery : Type := {
  organizationId : string
}.

(** [GetOrganizationsParamsInterface]: the arguments of the list
    request and whether the hook may issue it. *)
Record Params : Type := {
  after : Js.val;
  filter : Js.val;
  limit : Z;
  shouldFetch : bool
}.

Inductive AlertLevel : Type := INFO | SUCCESS | ERROR.

Record Alert : Type := {
  description : Js.val;
  level : AlertLevel;
  message : Js.val
}.

(** The remote calls made by the component's own code (the
    organization list is fetched by the [useGetOrganizations] hook,
    whose outputs the effects below receive). *)
Inductive Call : Type -> Type :=
| checkEmailDomainAvailable (emailDomain : Js.val) : Call Js.val
| addOrganizationEmailDomain (organizationId : string)
    (domains : list string) : Call unit.

Inductive Exception : Type := TypeError.

(** ** State

    The [useState] cells of the component, and the three things outside
    of it that its code writes: the arrays of email domains (JavaScript
    arrays are objects: a cell holds a reference, and [pop] through one
    reference is seen through every other), the alerts dispatched to
    the store, and the pages pushed to the history. *)
Record State : Type := {
  emailDomains : nat;
  isEmailDomainDataError : bool;
  isEmailDomainAvailableError : bool;
  organizations : list Organization;
  hasMoreOrganizations : bool;
  inputValue : string;
  afterCursor : Js.val;
  params : Params;
  arrays : gmap nat (list string);
  alerts : list Alert;
  history : list string
}.

(** The state of the first render. *)
Definition initialState : State := {|
  emailDomains := 0%nat;
  isEmailDomainDataError := false;
  isEmailDomainAvailableError := false;
  organizations := [];
  hasMoreOrganizations := true;
  inputValue := "";
  afterCursor := Js.Null;
  params := {| after := Js.Null; filter := Js.Undefined; limit := 15;
               shouldFetch := true |};
  arrays := {[ 0%nat := [] ]};
  alerts := [];
  history := []
|}.

(** The array behind a reference. *)
Definition array (ref : nat) (s : State) : list string :=
  default [] (arrays s !! ref).

(** The email domains the component holds. *)
Definition emailDomainList (s : State) : list string :=
  array (emailDomains s) s.

(** ** Tasks

    A handler or an [async] function of the component, started in state
    [s]: it has finished with a value, it has thrown, or it waits at an
    [await]; the rest of it is resumed with the way the call settled
    and with the state of the component at that time. *)
Inductive Res (A : Type) : Type :=
| Done (a : A) (s : State)
| Throw (e : Exception) (s : State)
| Susp {R : Type} (c : Call R) (s : State) (k : Settled R -> State -> Res A).
Arguments Done {A} a s.
Arguments Throw {A} e s.
Arguments Susp {A R} c s k.

Definition M (A : Type) : Type := State -> Res A.

Fixpoint bind_res {A B} (r : Res A) (f : A -> M B) : Res B :=
  match r with
  | Done a s => f a s
  | Throw e s => Throw e s
  | Susp c s k => Susp c s (fun x s' => bind_res (k x s') f)
  end.

#[export] Instance M_ret : MRet M := fun A a s => Done a s.
#[export] Instance M_bind : MBind M := fun A B f m s => bind_res (m s) f.

Definition read : M State := fun s => Done s s.
Definition modify (f : State -> State) : M unit := fun s => Done tt (f s).
Definition throw {A} (e : Exception) : M A := fun s => Throw e s.
Definition await {R} (c : Call R) : M (Settled R) :=
  fun s => Susp c s (fun x s' => Done x s').

(** Runs a task to the end against a backend, nothing else happening
    in between: the final state, the value when the task did not
    throw, and the remote calls made. *)
Fixpoint settle {A} (backend : forall R, Call R -> Settled R) (r : Res A)
  : State * option A * list (Invocation Call) :=
  match r with
  | Done a s => (s, Some a, [])
  | Throw e s => (s, None, [])
  | Susp c s k =>
      let '(s', a, calls) := settle backend (k (backend _ c) s) in
      (s', a, Invoked c :: calls)
  end.

(** ** State setters

    Each setter takes the updater form [prev => next]; setting a value
    is the constant updater. *)
(** [setEmailDomains(prev => f(prev))] *)
Definition setEmailDomains_with (f : nat -> nat) : M unit :=
  modify (fun s =>
  {|
     emailDomains := f (emailDomains s);
     isEmailDomainDataError := isEmailDomainDataError s;
     isEmailDomainAvailableError := isEmailDomainAvailableError s;
     organizations := organizations s;
     hasMoreOrganizations := hasMoreOrganizations s;
     inputValue := inputValue s;
     afterCursor := afterCursor s;
     params := params s;
     arrays := arrays s;
     alerts := alerts s;
     history := history s |}).

Definition setEmailDomains (v : nat) : M unit := setEmailDomains_with (fun _ => v).

(** [setIsEmailDomainDataError(prev => f(prev))] *)
Definition setIsEmailDomainDataError_with (f : bool -> bool) : M unit :=
  modify (fun s =>
  {|
     emailDomains := emailDomains s;
     isEmailDomainDataError := f (isEmailDomainDataError s);
     isEmailDomainAvailableError := isEmailDomainAvailableError s;
     organizations := organizations s;
     hasMoreOrganizations := hasMoreOrganizations s;
     inputValue := inputValue s;
     afterCursor := afterCursor s;
     params := params s;
     arrays := arrays s;
     alerts := alerts s;
     history := history s |}).

Definition setIsEmailDomainDataError (v : bool) : M unit := setIsEmailDomainDataError_with (fun _ => v).

(** [setIsEmailDomainAvailableError(prev => f(prev))] *)
Definition setIsEmailDomainAvailableError_with (f : bool -> bool) : M unit :=
  modify (fun s =>
  {|
     emailDomains := emailDomains s;
     isEmailDomainDataError := isEmailDomainDataError s;
     isEmailDomainAvailableError := f (isEmailDomainAvailableError s);
     organizations := organizations s;
     hasMoreOrganizations := hasMoreOrganizations s;
     inputValue := inputValue s;
     afterCursor := afterCursor s;
     params := params s;
     arrays := arrays s;
     alerts := alerts s;
     history := history s |}).

Definition setIsEmailDomainAvailableError (v : bool) : M unit := setIsEmailDomainAvailableError_with (fun _ => v).

(** [setOrganizations(prev => f(prev))] *)
Definition setOrganizations_with (f : list Organization -> list Organization) : M unit :=
  modify (fun s =>
  {|
     emailDomains := emailDomains s;
     isEmailDomainDataError := isEmailDomainDataError s;
     isEmailDomainAvailableError := isEmailDomainAvailableError s;
     organizations := f (organizations s);
     hasMoreOrganizations := hasMoreOrganizations s;
     inputValue := inputValue s;
     afterCursor := afterCursor s;
     params := params s;
     arrays := arrays s;
     alerts := alerts s;
     history := history s |}).

Definition setOrganizations (v : list Organization) : M unit := setOrganizations_with (fun _ => v).

(** [setHasMoreOrganizations(prev => f(prev))] *)
Definition setHasMoreOrganizations_with (f : bool -> bool) : M unit :=
  modify (fun s =>
  {|
     emailDomains := emailDomains s;
     isEmailDomainDataError := isEmailDomainDataError s;
     isEmailDomainAvailableError := isEmailDomainAvailableError s;
     organizations := organizations s;
     hasMoreOrganizations := f (hasMoreOrganizations s);
     inputValue := inputValue s;
     afterCursor := afterCursor s;
     params := params s;
     arrays := arrays s;
     alerts := alerts s;
     history := history s |}).

Definition setHasMoreOrganizations (v : bool) : M unit := setHasMoreOrganizations_with (fun _ => v).

(** [setInputValue(prev => f(prev))] *)
Definition setInputValue_with (f : string -> string) : M unit :=
  modify (fun s =>
  {|
     emailDomains := emailDomains s;
     isEmailDomainDataError := isEmailDomainDataError s;
     isEmailDomainAvailableError := isEmailDomainAvailableError s;
     organizations := organizations s;
     hasMoreOrganizations := hasMoreOrganizations s;
     inputValue := f (inputValue s);
     afterCursor := afterCursor s;
     params := params s;
     arrays := arrays s;
     alerts := alerts s;
     history := history s |}).

Definition setInputValue (v : string) : M unit := setInputValue_with (fun _ => v).

(** [setAfterCursor(prev => f(prev))] *)
Definition setAfterCursor_with (f : Js.val -> Js.val) : M unit :=
  modify (fun s =>
  {|
     emailDomains := emailDomains s;
     isEmailDomainDataError := isEmailDomainDataError s;
     isEmailDomainAvailableError := isEmailDomainAvailableError s;
     organizations := organizations s;
     hasMoreOrganizations := hasMoreOrganizations s;
     inputValue := inputValue s;
     afterCursor := f (afterCursor s);
     params := params s;
     arrays := arrays s;
     alerts := alerts s;
     history := history s |}).

Definition setAfterCursor (v : Js.val) : M unit := setAfterCursor_with (fun _ => v).

(** [setParams(prev => f(prev))] *)
Definition setParams_with (f : Params -> Params) : M unit :=
  modify (fun s =>
  {|
     emailDomains := emailDomains s;
     isEmailDomainDataError := isEmailDomainDataError s;
     isEmailDomainAvailableError := isEmailDomainAvailableError s;
     organizations := organizations s;
     hasMoreOrganizations := hasMoreOrganizations s;
     inputValue := inputValue s;
     afterCursor := afterCursor s;
     params := f (params s);
     arrays := arrays s;
     alerts := alerts s;
     history := history s |}).

Definition setParams (v : Params) : M unit := setParams_with (fun _ => v).

(** A write to the arrays. *)
Definition updateArrays (f : gmap nat (list string) -> gmap nat (list string)) : M unit :=
  modify (fun s =>
  {|
     emailDomains := emailDomains s;
     isEmailDomainDataError := isEmailDomainDataError s;
     isEmailDomainAvailableError := isEmailDomainAvailableError s;
     organizations := organizations s;
     hasMoreOrganizations := hasMoreOrganizations s;
     inputValue := inputValue s;
     afterCursor := afterCursor s;
     params := params s;
     arrays := f (arrays s);
     alerts := alerts s;
     history := history s |}).

(** A write to the alerts of the store. *)
Definition updateAlerts (f : list Alert -> list Alert) : M unit :=
  modify (fun s =>
  {|
     emailDomains := emailDomains s;
     isEmailDomainDataError := isEmailDomainDataError s;
     isEmailDomainAvailableError := isEmailDomainAvailableError s;
     organizations := organizations s;
     hasMoreOrganizations := hasMoreOrganizations s;
     inputValue := inputValue s;
     afterCursor := afterCursor s;
     params := params s;
     arrays := arrays s;
     alerts := f (alerts s);
     history := history s |}).

(** A write to the history. *)
Definition updateHistory (f : list string -> list string) : M unit :=
  modify (fun s =>
  {|
     emailDomains := emailDomains s;
     isEmailDomainDataError := isEmailDomainDataError s;
     isEmailDomainAvailableError := isEmailDomainAvailableError s;
     organizations := organizations s;
     hasMoreOrganizations := hasMoreOrganizations s;
     inputValue := inputValue s;
     afterCursor := afterCursor s;
     params := params s;
     arrays := arrays s;
     alerts := alerts s;
     history := f (history s) |}).


(** [dispatch(addAlert(alert))] *)
Definition dispatch_addAlert (alert : Alert) : M unit :=
  updateAlerts (fun log => log ++ [alert]).

(** [history.push] of the page of the organization [organizationId]
    (the table of paths is not part of these sources; the history keeps
    the identifier that replaces [:id] in the path). *)
Definition history_push (organizationId : string) : M unit :=
  updateHistory (fun pages => pages ++ [organizationId]).

(** [ref.pop()] *)
Definition array_pop (ref : nat) : M unit :=
  updateArrays (fun heap =>
    match heap !! ref with
    | Some arr => <[ref := Js.pop arr]> heap
    | None => heap
    end).

(** A new array object, as the multi-value input creates for every
    change of its value. *)
Definition array_new (arr : list string) : M nat :=
  s ← read;
  let ref := fresh (dom (arrays s)) in
  updateArrays (fun heap => <[ref := arr]> heap);;
  mret ref.

Section Component.

(** [t]: the translation of a message key. *)
Variable t : string -> string.
(** [FormValidation.domain]: the general grammar of a domain name. *)
Variable FormValidation_domain : Js.val -> bool.

Definition queryPrefix : string := "name co ".

(** ** The organization loader *)

(** The request the [useGetOrganizations] hook issues for the current
    [params], if it may; the arguments that depend on the state are
    kept. *)
Definition fetchRequest (s : State) : option (Js.val * Z * Js.val) :=
  if shouldFetch (params s)
  then Some (filter (params s), limit (params s), after (params s))
  else None.

(** The body of [links.forEach] in the response effect; [nextFound] is
    the local flag of the effect. *)
Fixpoint scanLinks (links : list OrganizationLink) (nextFound : bool)
  : M bool :=
  match links with
  | [] => mret nextFound
  | link :: rest =>
      if String.eqb (rel link) "next"
      then
        let nextCursor := Js.index (Js.split (href link) "after=") 1 in
        setAfterCursor nextCursor;;
        setHasMoreOrganizations (Js.truthy nextCursor);;
        scanLinks rest true
      else scanLinks rest nextFound
  end.

(** The effect that runs when [organizationListResponse] changes. *)
Definition organizationListResponseEffect
    (organizationListResponse : option OrganizationListResponse)
    (isOrganizationsFetchRequestLoading : bool)
    (isOrganizationsFetchRequestValidating : bool) : M unit :=
  match organizationListResponse with
  | None => mret tt
  | Some response =>
      if isOrganizationsFetchRequestLoading
         || isOrganizationsFetchRequestValidating
      then mret tt
      else
        setParams_with (fun prevParams =>
          {| after := after prevParams; filter := filter prevParams;
             limit := limit prevParams; shouldFetch := false |});;
        let updatedOrganizationList := response_organizations response in
        setOrganizations_with (fun prevOptions =>
          prevOptions ++ default [] updatedOrganizationList);;
        nextFound ← scanLinks (default [] (response_links response)) false;
        if negb nextFound
        then setAfterCursor (Js.Str "");; setHasMoreOrganizations false
        else mret tt
  end.

(** The effect that runs when [organizationsFetchRequestError]
    changes. *)
Definition organizationsFetchRequestErrorEffect
    (organizationsFetchRequestError : Js.val) : M unit :=
  if negb (Js.truthy organizationsFetchRequestError) then mret tt
  else
    let data := Js.get "data" (Js.get "response" organizationsFetchRequestError) in
    if Js.truthy (Js.get "description" data)
    then
      dispatch_addAlert
        {| description :=
             Js.coalesce (Js.get "description" data)
               (Js.Str (t "organizations:notifications.getOrganizationList.error.description"));
           level := ERROR;
           message :=
             Js.coalesce (Js.get "message" data)
               (Js.Str (t "organizations:notifications.getOrganizationList.error.message")) |}
    else
      dispatch_addAlert
        {| description :=
             Js.Str (t "organizations:notifications.getOrganizationList.genericError.description");
           level := ERROR;
           message :=
             Js.Str (t "organizations:notifications.getOrganizationList.genericError.message") |}.

Definition updateParams (cursor : Js.val) (inputValue : string) : M unit :=
  setAfterCursor cursor;;
  setInputValue inputValue;;
  setParams_with (fun prevParams =>
    {| after := Js.or cursor Js.Null;
       filter := if Js.truthy (Js.Str inputValue)
                 then Js.Str (queryPrefix +:+ inputValue)
                 else Js.Str "";
       limit := limit prevParams;
       shouldFetch := true |}).

(** The function wrapped by [debounce] in [handleInputChange]; [data]
    is [string | null]. *)
Definition handleInputChange (data : option string) : M unit :=
  let newInputValue := default "" data in
  setOrganizations [];;
  updateParams (Js.Str "") newInputValue.

(** lodash [debounce(func, 100)]: every call replaces the pending
    arguments and restarts the timer; the function runs once, with the
    arguments of the last call, when the timer has run for the whole
    wait.  [Pending] is a started timer. *)
Record Pending : Type := {
  lastCallTime : Z;
  lastArgs : option string
}.

Definition wait : Z := 100.

Definition debounced_call (now : Z) (data : option string)
    (timer : option Pending) : option Pending :=
  Some {| lastCallTime := now; lastArgs := data |}.

(** The timer expiring at time [now]: the pending call runs if the
    wait has elapsed since the last call. *)
Definition debounced_expire (now : Z) (timer : option Pending)
  : M (option Pending) :=
  match timer with
  | Some pending =>
      if wait <=? now - lastCallTime pending
      then handleInputChange (lastArgs pending);; mret None
      else mret timer
  | None => mret None
  end.

Definition handleOnChange (value : Js.val) : M unit :=
  if negb (Js.truthy value)
  then setOrganizations [];; updateParams (Js.Str "") ""
  else mret tt.

Definition loadMoreOrganizations : M unit :=
  s ← read;
  if negb (hasMoreOrganizations s) then mret tt
  else updateParams (afterCursor s) (inputValue s).

(** [filteredDiscoverableOrganizations]: the organizations that are not
    configured yet, by identifier. *)
Definition filteredDiscoverableOrganizations
    (discoverableOrganizations : option (option (list OrganizationDiscovery)))
    (organizations : list Organization) : list Organization :=
  List.filter (fun organization =>
    negb (match discoverableOrganizations with
          | Some (Some configured) =>
              existsb (fun discoverableOrganization =>
                         String.eqb (organizationId discoverableOrganization)
                                    (id organization))
                      configured
          | _ => false
          end))
    organizations.

(** ** The email domains *)

Definition checkEmailDomainAvailability (emailDomain : Js.val) : M Js.val :=
  settled ← await (checkEmailDomainAvailable emailDomain);
  match settled with
  | Fulfilled response => mret (Js.get "available" response)
  | Rejected =>
      dispatch_addAlert
        {| description :=
             Js.Str (t "organizationDiscovery:notifications.checkEmailDomain.error.description");
           level := ERROR;
           message :=
             Js.Str (t "organizationDiscovery:notifications.checkEmailDomain.error.message") |};;
      mret (Js.Bool true)
  end.

(** [emailDomainList] is a reference to the array the input handed to
    [onChange]. *)
Definition validateEmailDomain (emailDomainList : nat) : M unit :=
  s ← read;
  let isEmailDomainValid :=
    FormValidation_domain (Js.lastElement (array emailDomainList s)) in
  if negb isEmailDomainValid
  then setIsEmailDomainDataError true;; array_pop emailDomainList
  else
    isEmailDomainAvailable ←
      checkEmailDomainAvailability (Js.lastElement (array emailDomainList s));
    if negb (Js.truthy isEmailDomainAvailable)
    then setIsEmailDomainAvailableError true;; array_pop emailDomainList
    else mret tt.

(** [onChange] of the multi-value input; [value] is a reference to the
    new array of entries. *)
Definition onChange (value : nat) : M unit :=
  setEmailDomains value;;
  s ← read;
  if (0 <? length (array value s))%nat
  then validateEmailDomain value
  else mret tt.

Definition onInputChange : M unit :=
  setIsEmailDomainDataError false;;
  setIsEmailDomainAvailableError false.

(** The user adds [entry] to the multi-value input: the input builds a
    new array, the current entries followed by [entry], and calls
    [onChange] with it. *)
Definition addEntry (entry : string) : M unit :=
  s ← read;
  value ← array_new (emailDomainList s ++ [entry]);
  onChange value.

(** The two checks of an entry, as the specification words them: the
    entry has the format of a domain, and the remote check answers
    that it is available, a remote check that fails counting as a
    negative answer. *)
Definition passesBothChecks (backend : forall R, Call R -> Settled R)
    (entry : string) : bool :=
  FormValidation_domain (Js.Str entry)
  && match backend _ (checkEmailDomainAvailable (Js.Str entry)) with
     | Fulfilled response => Js.truthy (Js.get "available" response)
     | Rejected => false
     end.

(** ** Submission *)

(** [organizations.find(o => o.name === organizationName)] *)
Definition findByName (organizationName : Js.val)
    (organizations : list Organization) : option Organization :=
  List.find (fun organization =>
               Js.strictEqualsString (name organization) organizationName)
            organizations.

Definition handleSubmit (values : Js.val) : M unit :=
  s ← read;
  match findByName (Js.get "organizationName" values) (organizations s) with
  | None => throw TypeError
  | Some organization =>
      let organizationId := id organization in
      settled ← await (addOrganizationEmailDomain organizationId (emailDomainList s));
      match settled with
      | Fulfilled _ =>
          dispatch_addAlert
            {| description :=
                 Js.Str (t "organizationDiscovery:notifications.addEmailDomains.success.description");
               level := SUCCESS;
               message :=
                 Js.Str (t "organizationDiscovery:notifications.addEmailDomains.success.message") |};;
          history_push organizationId
      | Rejected =>
          dispatch_addAlert
            {| description :=
                 Js.Str (t "organizationDiscovery:notifications.addEmailDomains.error.description");
               level := ERROR;
               message :=
                 Js.Str (t "organizationDiscovery:notifications.addEmailDomains.error.message") |}
      end
  end.

(** The submit button rendered under [FormSpy]. *)
Record PrimaryButton : Type := {
  disabled : bool;
  loading : bool
}.

Definition submitButton (isReadOnly : bool) (submitting : bool)
    (values : Js.val) (s : State) : option PrimaryButton :=
  if negb isReadOnly
  then Some {| disabled :=
                 submitting
                 || Js.isEmpty (Js.Arr (map Js.Str (emailDomainList s)))
                 || Js.isEmpty (Js.get "organizationName" values);
               loading := submitting |}
  else None.

End Component.

(** ** Readings of the code used to state its properties *)

(** The state a task has reached when it finishes, throws or first
    waits. *)
Definition reached {A} (r : Res A) : State :=
  match r with
  | Done _ s => s
  | Throw _ s => s
  | Susp _ s _ => s
  end.

(** The cursor [links.forEach] leaves behind: that of the last link
    whose relation is [next], read off its address. *)
Fixpoint lastNextCursor (links : list OrganizationLink) : option Js.val :=
  match links with
  | [] => None
  | link :: rest =>
      match lastNextCursor rest with
      | Some cursor => Some cursor
      | None =>
          if String.eqb (rel link) "next"
          then Some (Js.index (Js.split (href link) "after=") 1)
          else None
      end
  end.

(** [s] with the after-cursor set to [cursor] and the has-more flag to
    its truthiness. *)
Definition withNextCursor (cursor : Js.val) (s : State) : State :=
  {| emailDomains := emailDomains s;
     isEmailDomainDataError := isEmailDomainDataError s;
     isEmailDomainAvailableError := isEmailDomainAvailableError s;
     organizations := organizations s;
     hasMoreOrganizations := Js.truthy cursor;
     inputValue := inputValue s;
     afterCursor := cursor;
     params := params s;
     arrays := arrays s;
     alerts := alerts s;
     history := history s |}.

(** [s] with one more alert. *)
Definition withAlert (alert : Alert) (s : State) : State :=
  {| emailDomains := emailDomains s;
     isEmailDomainDataError := isEmailDomainDataError s;
     isEmailDomainAvailableError := isEmailDomainAvailableError s;
     organizations := organizations s;
     hasMoreOrganizations := hasMoreOrganizations s;
     inputValue := inputValue s;
     afterCursor := afterCursor s;
     params := params s;
     arrays := arrays s;
     alerts := alerts s ++ [alert];
     history := history s |}.

(** ** Backends and collaborators for examples *)

(** Every call rejects: the network is down. *)
Definition backend_down (R : Type) (c : Call R) : Settled R := Rejected.

(** Every email domain is taken. *)
Definition backend_taken (R : Type) (c : Call R) : Settled R :=
  match c in Call R return Settled R with
  | checkEmailDomainAvailable _ =>
      Fulfilled (Js.Obj [("available", Js.Bool false)])
  | addOrganizationEmailDomain _ _ => Fulfilled tt
  end.

(** Every email domain is free. *)
Definition backend_free (R : Type) (c : Call R) : Settled R :=
  match c in Call R return Settled R with
  | checkEmailDomainAvailable _ =>
      Fulfilled (Js.Obj [("available", Js.Bool true)])
  | addOrganizationEmailDomain _ _ => Fulfilled tt
  end.

(** A stand-in for [FormValidation.domain] in examples: a string with
    a dot after its first character. *)
Definition sampleDomainCheck (v : Js.val) : bool :=
  match v with
  | Js.Str s => 0 <? Js.lastIndexOf s "."
  | _ => false
  end.

(** A page with a [next] link that carries a cursor, and one whose
    [next] link carries none. *)
Definition samplePage : OrganizationListResponse :=
  {| response_organizations :=
       Some [ {| id := "10084a8d"; name := "Acme" |};
              {| id := "c524c30a"; name := "Acme Labs" |} ];
     response_links :=
       Some [ {| rel := "next";
                 href := "/o/api/server/v1/organizations?limit=15&after=Q1VSU09SMQ" |} ] |}.

Definition sampleLastPage : OrganizationListResponse :=
  {| response_organizations := Some [ {| id := "f3fb6e9c"; name := "Acme West" |} ];
     response_links :=
       Some [ {| rel := "previous";
                 href := "/o/api/server/v1/organizations?limit=15&before=Q1VSU09SMQ" |} ] |}.

Definition samplePageWithoutCursor : OrganizationListResponse :=
  {| response_organizations := Some [ {| id := "10084a8d"; name := "Acme" |} ];
     response_links :=
       Some [ {| rel := "next";
                 href := "/o/api/server/v1/organizations?limit=15" |} ] |}.

(** A structured error body, as the server sends it. *)
Definition sampleError : Js.val :=
  Js.Obj [ ("response",
            Js.Obj [ ("data",
                      Js.Obj [ ("code", Js.Str "ORG-60002");
                               ("message", Js.Str "Unable to list organizations.");
                               ("description", Js.Str "Invalid filter.") ]) ]) ].

(** Every email domain is free but [taken]. *)
Definition backend_but (taken : string) (R : Type) (c : Call R) : Settled R :=
  match c in Call R return Settled R with
  | checkEmailDomainAvailable emailDomain =>
      Fulfilled
        (Js.Obj [("available",
                  Js.Bool (negb (Js.strictEqualsString taken emailDomain)))])
  | addOrganizationEmailDomain _ _ => Fulfilled tt
  end.

(** A page with two organizations of one name. *)
Definition samplePageOfNamesakes : OrganizationListResponse :=
  {| response_organizations :=
       Some [ {| id := "10084a8d"; name := "Acme" |};
              {| id := "c524c30a"; name := "Acme" |} ];
     response_links := None |}.

(** [s] once the page [response] has arrived. *)
Definition withPage (response : OrganizationListResponse) (s : State) : State :=
  let cursor := lastNextCursor (default [] (response_links response)) in
  {| emailDomains := emailDomains s;
     isEmailDomainDataError := isEmailDomainDataError s;
     isEmailDomainAvailableError := isEmailDomainAvailableError s;
     organizations :=
       organizations s ++ default [] (response_organizations response);
     hasMoreOrganizations :=
       match cursor with
       | Some c => Js.truthy c
       | None => false
       end;
     inputValue := inputValue s;
     afterCursor := default (Js.Str "") cursor;
     params := {| after := after (params s); filter := filter (params s);
                  limit := limit (params s); shouldFetch := false |};
     arrays := arrays s;
     alerts := alerts s;
     history := history s |}.

Section Machine.

Variable t : string -> string.
Variable FormValidation_domain : Js.val -> bool.

(** ** The loader, event after event *)

(** What can happen to the loader: the response of the hook changes
    and its effect runs, with the flags of the hook at that time; the
    error of the hook changes; the debounced function of the input
    runs; the selected value changes; the user scrolls to the end of
    the options. *)
Inductive LoaderEvent : Type :=
| ResponseChanged (organizationListResponse : option OrganizationListResponse)
    (isLoading isValidating : bool)
| ErrorChanged (organizationsFetchRequestError : Js.val)
| InputChanged (data : option string)
| ValueChanged (value : Js.val)
| ScrolledToEnd.

Definition handleLoaderEvent (event : LoaderEvent) : M unit :=
  match event with
  | ResponseChanged response isLoading isValidating =>
      organizationListResponseEffect response isLoading isValidating
  | ErrorChanged error => organizationsFetchRequestErrorEffect t error
  | InputChanged data => handleInputChange data
  | ValueChanged value => handleOnChange value
  | ScrolledToEnd => loadMoreOrganizations
  end.

(** The state after a run of events. *)
Fixpoint runLoader (events : list LoaderEvent) (s : State) : State :=
  match events with
  | [] => s
  | event :: rest => runLoader rest (reached (handleLoaderEvent event s))
  end.

(** The filter of the list request for the text of the input. *)
Definition filterFor (inputValue : string) : Js.val :=
  if Js.truthy (Js.Str inputValue)
  then Js.Str (queryPrefix +:+ inputValue)
  else Js.Str "".

(** What a run of events makes of the accumulated organizations
    [acc]: a page that has arrived adds its organizations, a new text
    of the input or a cleared selection empties them. *)
Fixpoint accumulated (events : list LoaderEvent) (acc : list Organization)
  : list Organization :=
  match events with
  | [] => acc
  | ResponseChanged (Some response) false false :: rest =>
      accumulated rest (acc ++ default [] (response_organizations response))
  | InputChanged _ :: rest => accumulated rest []
  | ValueChanged value :: rest =>
      accumulated rest (if Js.truthy value then acc else [])
  | _ :: rest => accumulated rest acc
  end.

(** The alerts a run of events dispatches: one for each error. *)
Definition errorsSeen (events : list LoaderEvent) : nat :=
  length (List.filter (fun event =>
                         match event with
                         | ErrorChanged error => Js.truthy error
                         | _ => false
                         end) events).

(** The [options] of the organization name field. *)
Definition organizationNameOptions
    (discoverableOrganizations : option (option (list OrganizationDiscovery)))
    (s : State) : list string :=
  map name (filteredDiscoverableOrganizations discoverableOrganizations
              (organizations s)).

(** ** The form and a submission in flight *)

(** What [onSubmit] hands back to the form: some value, or a promise,
    settled or not. *)
Inductive Returned : Type :=
| ReturnedValue (v : Js.val)
| ReturnedPromise (settled : bool).

(** [onSubmit] of the form, [(values) => { handleSubmit(values); }]: it
    starts [handleSubmit], which is not [async] and returns nothing,
    and having a block body without [return] it hands back
    [undefined] itself, whatever the request that [handleSubmit] has
    started is doing.  The result is the task started and the value
    handed back. *)
Definition onSubmit (values : Js.val) (s : State) : Res unit * Returned :=
  (handleSubmit t values s, ReturnedValue Js.Undefined).

(** The [submitting] flag of the render props, by the contract of
    final-form, a library outside these sources: the flag is up from
    the call of [onSubmit] until the promise it has handed back
    settles; when [onSubmit] hands back anything but a promise, the
    submission is over as soon as [onSubmit] returns. *)
Definition formSubmitting (returned : Returned) : bool :=
  match returned with
  | ReturnedPromise settled => negb settled
  | ReturnedValue _ => false
  end.

(** ** Checks that overlap *)

(** A waiting task goes on when its call settles: the backend says
    how, and [now] is the state of the component at that time. *)
Definition resume {A} (backend : forall R, Call R -> Settled R)
    (r : Res A) (now : State) : Res A :=
  match r with
  | Susp c _ k => k (backend _ c) now
  | _ => r
  end.

(** The user adds [first] and then [second] before the check of
    [first] has settled; the check of [first] settles, then that of
    [second].  The state after all this. *)
Definition addTwoOverlapping (backend : forall R, Call R -> Settled R)
    (first second : string) (s : State) : State :=
  let check1 := addEntry t FormValidation_domain first s in
  let check2 := addEntry t FormValidation_domain second (reached check1) in
  let settled1 := resume backend check1 (reached check2) in
  let settled2 := resume backend check2 (reached settled1) in
  reached settled2.

(** The same two entries, the second added once the check of the first
    has settled. *)
Definition addTwoInTurn (backend : forall R, Call R -> Settled R)
    (first second : string) (s : State) : State :=
  let s1 := (settle backend (addEntry t FormValidation_domain first s)).1.1 in
  (settle backend (addEntry t FormValidation_domain second s1)).1.1.

End Machine.

End AddOrganizationDiscoveryDomains.

(* ===================================================================== *)
(** * The branding theme *)
(* ===================================================================== *)

(** [features/common.branding.v1/branding/theme.ts] *)
Module Branding.

(** [String.prototype.toLowerCase] and [toUpperCase] as they act on
    strings of ASCII: the letters change case, the other code units
    are left as they are. *)
Definition lowerAscii (c : ascii) : ascii :=
  let n := nat_of_ascii c in
  if (65 <=? n)%nat && (n <=? 90)%nat then ascii_of_nat (n + 32) else c.

Definition upperAscii (c : ascii) : ascii :=
  let n := nat_of_ascii c in
  if (97 <=? n)%nat && (n <=? 122)%nat then ascii_of_nat (n - 32) else c.

Fixpoint asciiToLowerCase (s : string) : string :=
  match s with
  | EmptyString => EmptyString
  | String c s' => String (lowerAscii c) (asciiToLowerCase s')
  end.

Fixpoint asciiToUpperCase (s : string) : string :=
  match s with
  | EmptyString => EmptyString
  | String c s' => String (upperAscii c) (asciiToUpperCase s')
  end.

(** The strings of ASCII: every code unit is below 128. *)
Fixpoint isAscii (s : string) : bool :=
  match s with
  | EmptyString => true
  | String c s' => (nat_of_ascii c <? 128)%nat && isAscii s'
  end.

(** [v == null]: the values at which [?.] stops and [??] falls
    back. *)
Definition nullish (v : Js.val) : bool :=
  match v with
  | Js.Undefined | Js.Null => true
  | _ => false
  end.

(** The object handed to [extendTheme]: its leaves are values taken
    from the branding, or their defaults, and a few numbers. *)
Inductive ThemeOption : Type :=
| Value (v : Js.val)
| Number (n : Z)
| Node (props : list (string * ThemeOption)).

Fixpoint property (k : string) (props : list (string * ThemeOption))
  : option ThemeOption :=
  match props with
  | [] => None
  | (k', o) :: rest => if String.eqb k k' then Some o else property k rest
  end.

(** [options.k1.k2...] *)
Fixpoint at_path (path : list string) (o : ThemeOption) : option ThemeOption :=
  match path with
  | [] => Some o
  | k :: rest =>
      match o with
      | Node props =>
          match property k props with
          | Some o' => at_path rest o'
          | None => None
          end
      | _ => None
      end
  end.

Section Theme.

(** [String.prototype.toLowerCase] and [toUpperCase]. *)
Variable toLowerCase : string -> string.
Variable toUpperCase : string -> string.

(** In what follows [None] is a [TypeError]: a property read on
    [undefined] or [null], or a call of something that is no
    function. *)

(** [branding?.themePreference?.preference?.theme?.activeTheme.toLowerCase()
    ?? "light"] *)
Definition mode (branding : Js.val) : option string :=
  let theme :=
    Js.get "theme" (Js.get "preference" (Js.get "themePreference" branding)) in
  if nullish theme then Some "light"
  else match Js.get "activeTheme" theme with
       | Js.Str activeTheme => Some (toLowerCase activeTheme)
       | _ => None
       end.

(** [branding?.themePreference?.preference?.theme[mode.toUpperCase()]] *)
Definition brandingTheme (branding : Js.val) (mode : string) : option Js.val :=
  let preference := Js.get "preference" (Js.get "themePreference" branding) in
  if nullish preference then Some Js.Undefined
  else
    let theme := Js.get "theme" preference in
    if nullish theme then None
    else Some (Js.get (toUpperCase mode) theme).

(** [brandingTheme?.colors?.background?.body?.main] and the like. *)
Definition bodyMain (brandingTheme : Js.val) : Js.val :=
  Js.get "main" (Js.get "body" (Js.get "background" (Js.get "colors" brandingTheme))).

Definition surfaceDark (brandingTheme : Js.val) : Js.val :=
  Js.get "dark" (Js.get "surface" (Js.get "background" (Js.get "colors" brandingTheme))).

Definition primaryMain (brandingTheme : Js.val) : Js.val :=
  Js.get "main" (Js.get "primary" (Js.get "colors" brandingTheme)).

(** [brandingTheme?.typography.font.fontFamily ?? "Gilmer, sans-serif"] *)
Definition fontFamily (brandingTheme : Js.val) : option Js.val :=
  if nullish brandingTheme then Some (Js.Str "Gilmer, sans-serif")
  else
    let typography := Js.get "typography" brandingTheme in
    if nullish typography then None
    else
      let font := Js.get "font" typography in
      if nullish font then None
      else Some (Js.coalesce (Js.get "fontFamily" font)
                   (Js.Str "Gilmer, sans-serif")).

(** The palette of one colour scheme; the two schemes differ in the
    defaults of the backgrounds only. *)
Definition palette (brandingTheme : Js.val) (main wrapper : string)
  : ThemeOption :=
  Node
    [ ("customComponents",
        Node
          [ ("AppShell",
              Node
                [ ("Main",
                    Node [ ("background",
                             Value (Js.coalesce (bodyMain brandingTheme)
                                      (Js.Str main))) ]);
                  ("MainWrapper",
                    Node [ ("background",
                             Value (Js.coalesce (surfaceDark brandingTheme)
                                      (Js.Str wrapper))) ]) ]);
            ("Navbar",
              Node [ ("background",
                       Value (Js.coalesce (surfaceDark brandingTheme)
                                (Js.Str wrapper))) ]) ]);
      ("gradients",
        Node
          [ ("primary",
              Node
                [ ("stop1",
                    Value (Js.coalesce (primaryMain brandingTheme)
                             (Js.Str "#EB4F63")));
                  ("stop2",
                    Value (Js.coalesce (primaryMain brandingTheme)
                             (Js.Str "#FA7B3F"))) ]) ]);
      ("primary",
        Node [ ("main",
                 Value (Js.coalesce (primaryMain brandingTheme)
                          (Js.Str "#ff7300"))) ]) ].

(** The object literal of [generateTheme], for a branding theme and a
    font family already read. *)
Definition themeOptions (brandingTheme : Js.val) (font : Js.val)
    (direction : string) : ThemeOption :=
  Node
    [ ("colorSchemes",
        Node
          [ ("dark",
              Node [ ("palette",
                       palette brandingTheme
                         "var(--oxygen-palette-background-paper)"
                         "var(--oxygen-palette-background-paper)") ]);
            ("light",
              Node [ ("palette",
                       palette brandingTheme "#FAF9F8" "#F6F4F2") ]) ]);
      ("components",
        Node
          [ ("MuiAppBar",
              Node [ ("styleOverrides",
                       Node [ ("root",
                                Node [ ("backgroundColor",
                                         Value (Js.coalesce
                                                  (surfaceDark brandingTheme)
                                                  (Js.Str "#F6F4F2")));
                                       ("borderBottom", Value (Js.Str "none")) ]) ]) ]);
            ("MuiDrawer",
              Node [ ("styleOverrides",
                       Node [ ("paper",
                                Node [ ("borderRight", Value (Js.Str "none"));
                                       ("boxShadow", Value (Js.Str "none")) ]) ]) ]);
            ("MuiMenu",
              Node [ ("styleOverrides",
                       Node [ ("paper",
                                Node [ ("border",
                                         Value (Js.Str "1px solid rgba(0, 0, 0, 0.08)"));
                                       ("borderRadius", Value (Js.Str "8px"));
                                       ("boxShadow",
                                         Value (Js.Str "0px 2px 4px rgba(0, 0, 0, 0.08)")) ]) ]) ]) ]);
      ("customComponents",
        Node [ ("AppShell",
                 Node [ ("properties",
                          Node [ ("mainBorderTopLeftRadius", Value (Js.Str "24px"));
                                 ("navBarTopPosition", Value (Js.Str "80px")) ]) ]) ]);
      ("direction", Value (Js.Str direction));
      ("shape", Node [ ("borderRadius", Number 4) ]);
      ("typography",
        Node [ ("fontFamily", Value font);
               ("h1", Node [ ("fontWeight", Number 700) ]) ]) ].

(** [generateTheme]: the options handed to [extendTheme], or [None]
    when reading the branding throws. *)
Definition generateTheme (branding : Js.val) (direction : string)
  : option ThemeOption :=
  match mode branding with
  | None => None
  | Some mode =>
      match brandingTheme branding mode with
      | None => None
      | Some brandingTheme =>
          match fontFamily brandingTheme with
          | None => None
          | Some font => Some (themeOptions brandingTheme font direction)
          end
      end
  end.

End Theme.

(** The places of the options that take the primary colour. *)
Definition primaryPlaces : list (list string) :=
  [ ["colorSchemes"; "dark"; "palette"; "gradients"; "primary"; "stop1"];
    ["colorSchemes"; "dark"; "palette"; "gradients"; "primary"; "stop2"];
    ["colorSchemes"; "dark"; "palette"; "primary"; "main"];
    ["colorSchemes"; "light"; "palette"; "gradients"; "primary"; "stop1"];
    ["colorSchemes"; "light"; "palette"; "gradients"; "primary"; "stop2"];
    ["colorSchemes"; "light"; "palette"; "primary"; "main"] ].

(** The places that take the dark surface colour. *)
Definition surfacePlaces : list (list string) :=
  [ ["colorSchemes"; "dark"; "palette"; "customComponents"; "AppShell";
     "MainWrapper"; "background"];
    ["colorSchemes"; "dark"; "palette"; "customComponents"; "Navbar";
     "background"];
    ["colorSchemes"; "light"; "palette"; "customComponents"; "AppShell";
     "MainWrapper"; "background"];
    ["colorSchemes"; "light"; "palette"; "customComponents"; "Navbar";
     "background"];
    ["components"; "MuiAppBar"; "styleOverrides"; "root"; "backgroundColor"] ].

(** [{ ...v, k: f(v.k) }] on an object; any other value is left as it
    is. *)
Definition update (k : string) (f : Js.val -> Js.val) (v : Js.val) : Js.val :=
  match v with
  | Js.Obj props => Js.Obj (Js.set k (f (Js.get k v)) props)
  | _ => v
  end.

(** The branding [branding] with the name of its active theme replaced
    by [activeTheme], everything else as it is. *)
Definition withActiveTheme (activeTheme : string) (branding : Js.val) : Js.val :=
  update "themePreference"
    (update "preference"
       (update "theme"
          (update "activeTheme" (fun _ => Js.Str activeTheme))))
    branding.

(** A branding with one theme, active, under the name [name]. *)
Definition brandingWith (activeTheme name : string) (theme : Js.val) : Js.val :=
  Js.Obj
    [ ("themePreference",
        Js.Obj
          [ ("preference",
              Js.Obj
                [ ("theme",
                    Js.Obj [ ("activeTheme", Js.Str activeTheme);
                             (name, theme) ]) ]) ]) ].

(** A theme that sets its colours and its font. *)
Definition sampleTheme : Js.val :=
  Js.Obj
    [ ("colors",
        Js.Obj
          [ ("primary", Js.Obj [ ("main", Js.Str "#0055aa") ]);
            ("background",
              Js.Obj [ ("body", Js.Obj [ ("main", Js.Str "#ffffff") ]);
                       ("surface", Js.Obj [ ("dark", Js.Str "#eeeeee") ]) ]) ]);
      ("typography",
        Js.Obj [ ("font", Js.Obj [ ("fontFamily", Js.Str "Inter") ]) ]) ].

End Branding.

(* ===================================================================== *)
(** * Facts about the JavaScript layer *)
(* ===================================================================== *)

Section JsFacts.
Import Js.

Example split_after :
  split "/o/api/organizations?limit=15&after=Q1VSU09SMQ" "after="
  = ["/o/api/organizations?limit=15&"; "Q1VSU09SMQ"].
Proof. reflexivity. Qed.

Example split_absent : split "/orgs?limit=15" "after=" = ["/orgs?limit=15"].
Proof. reflexivity. Qed.

Example split_twice : split "a,b,,c" "," = ["a"; "b"; ""; "c"].
Proof. reflexivity. Qed.

Example lastIndexOf_examples :
  lastIndexOf "a.b.c" "." = 3 /\ lastIndexOf ".abc" "." = 0
  /\ lastIndexOf "abc" "." = -1 /\ indexOf ".a.b" "." = 0
  /\ indexOf "ab.c" "." = 2 /\ indexOf "abc" "." = -1.
Proof. repeat split; reflexivity. Qed.

Lemma truthy_Str (s : string) : truthy (Str s) = false <-> s = "".
Proof.
  simpl. rewrite negb_false_iff. apply String.eqb_eq.
Qed.

Lemma prefix_dot (s : string) :
  String.prefix "." s = true <-> String.get 0 s = Some "."%char.
Proof.
  destruct s as [|c s'].
  - split; discriminate.
  - change (String.prefix "." (String c s'))
      with (if ascii_dec "." c then String.prefix "" s' else false).
    change (String.get 0 (String c s')) with (Some c).
    destruct (ascii_dec "." c) as [Heq|Hne].
    + rewrite <- Heq. destruct s'; split; reflexivity.
    + split; [discriminate | intros [= Hc]; congruence].
Qed.

(** [lastIndexOf_from] answers [-1] or a position at or after the
    start, and the position holds a dot. *)
Lemma lastIndexOf_from_sound (s : string) : forall i r,
  lastIndexOf_from "." s i = r -> 0 <= i ->
  r = -1 \/ (i <= r /\ String.get (Z.to_nat (r - i)) s = Some "."%char).
Proof.
  induction s as [|c s' IH]; intros i r Hr Hi.
  - simpl in Hr. left. symmetry. exact Hr.
  - cbn [lastIndexOf_from] in Hr.
    destruct (0 <=? lastIndexOf_from "." s' (i + 1)) eqn:Hlater.
    + apply Z.leb_le in Hlater.
      destruct (IH (i + 1) r Hr ltac:(lia)) as [Hneg | [Hle Hget]]; [lia|].
      right. split; [lia|].
      replace (Z.to_nat (r - i)) with (S (Z.to_nat (r - (i + 1)))) by lia.
      exact Hget.
    + destruct (String.prefix "." (String c s')) eqn:Hp.
      * right. subst r. split; [lia|].
        replace (Z.to_nat (i - i)) with 0%nat by lia.
        apply prefix_dot. exact Hp.
      * left. symmetry. exact Hr.
Qed.

(** A dot at position [n] makes [lastIndexOf_from] answer a position
    at or after it. *)
Lemma lastIndexOf_from_complete (s : string) : forall i n,
  String.get n s = Some "."%char -> 0 <= i ->
  i + Z.of_nat n <= lastIndexOf_from "." s i.
Proof.
  induction s as [|c s' IH]; intros i n Hget Hi.
  - destruct n; discriminate.
  - cbn [lastIndexOf_from].
    destruct n as [|n].
    + destruct (0 <=? lastIndexOf_from "." s' (i + 1)) eqn:Hlater.
      * pose proof (lastIndexOf_from_sound s' (i + 1) _ eq_refl ltac:(lia)) as Hs.
        apply Z.leb_le in Hlater. lia.
      * apply prefix_dot in Hget. rewrite Hget. lia.
    + simpl in Hget. specialize (IH (i + 1) n Hget ltac:(lia)).
      assert ((0 <=? lastIndexOf_from "." s' (i + 1)) = true) as ->
          by (apply Z.leb_le; lia).
      lia.
Qed.

(** [s.lastIndexOf(".") <= 0] says that [s] has no dot at an index
    greater than 0. *)
Lemma lastIndexOf_dot_le_0 (s : string) :
  lastIndexOf s "." <= 0
  <-> forall i, (0 < i)%nat -> String.get i s <> Some "."%char.
Proof.
  unfold lastIndexOf. split.
  - intros Hle i Hi Hget.
    pose proof (lastIndexOf_from_complete s 0 i Hget ltac:(lia)). lia.
  - intros Hno.
    destruct (lastIndexOf_from_sound s 0 _ eq_refl ltac:(lia)) as [-> | [Hle Hget]];
      [lia|].
    destruct (Z.to_nat (lastIndexOf_from "." s 0 - 0)) as [|n] eqn:Hn; [lia|].
    exfalso. apply (Hno (S n)); [lia | exact Hget].
Qed.

(** [s.indexOf(".") == 0] says that [s] begins with a dot. *)
Lemma indexOf_dot_0 (s : string) :
  indexOf s "." = 0 <-> String.get 0 s = Some "."%char.
Proof.
  unfold indexOf. rewrite <- prefix_dot.
  destruct s as [|c s']; cbn [indexOf_from].
  - simpl. split; [lia | discriminate].
  - destruct (String.prefix "." (String c s')) eqn:Hp; [tauto|].
    split; [|discriminate].
    assert (forall s i, 0 < i -> indexOf_from "." s i <> 0) as Hpos.
    { clear. induction s as [|c s IH]; intros i Hi; cbn [indexOf_from].
      - simpl. lia.
      - destruct (String.prefix "." (String c s)); [lia|].
        apply IH. lia. }
    intros H. exfalso. exact (Hpos s' (0 + 1) ltac:(lia) H).
Qed.

(** Property lists. *)
Lemma lookup_set_eq (k : string) (v : val) (props : list (string * val)) :
  lookup k (set k v props) = Some v.
Proof.
  induction props as [|[k' v'] rest IH]; simpl.
  - rewrite String.eqb_refl. reflexivity.
  - destruct (String.eqb k k') eqn:E; simpl.
    + rewrite String.eqb_refl. reflexivity.
    + rewrite E. exact IH.
Qed.

Lemma lookup_set_ne (k k' : string) (v : val) (props : list (string * val)) :
  k <> k' -> lookup k' (set k v props) = lookup k' props.
Proof.
  intros Hne. induction props as [|[k0 v0] rest IH]; simpl.
  - destruct (String.eqb k' k) eqn:E; [|reflexivity].
    apply String.eqb_eq in E. congruence.
  - destruct (String.eqb k k0) eqn:E; simpl.
    + apply String.eqb_eq in E. subst k0.
      destruct (String.eqb k' k) eqn:E'; [|reflexivity].
      apply String.eqb_eq in E'. congruence.
    + rewrite IH. reflexivity.
Qed.

Lemma lookup_remove_eq (k : string) (props : list (string * val)) :
  lookup k (remove k props) = None.
Proof.
  induction props as [|[k' v'] rest IH]; simpl; [reflexivity|].
  destruct (String.eqb k k') eqn:E; simpl; [exact IH|].
  rewrite E. exact IH.
Qed.

Lemma lookup_remove_ne (k k' : string) (props : list (string * val)) :
  k <> k' -> lookup k' (remove k props) = lookup k' props.
Proof.
  intros Hne. induction props as [|[k0 v0] rest IH]; simpl; [reflexivity|].
  destruct (String.eqb k k0) eqn:E; simpl.
  - apply String.eqb_eq in E. subst k0.
    destruct (String.eqb k' k) eqn:E'; [|exact IH].
    apply String.eqb_eq in E'. congruence.
  - rewrite IH. reflexivity.
Qed.

End JsFacts.

(* ===================================================================== *)
(** * Facts about asynchronous functions *)
(* ===================================================================== *)

Section AsyncFacts.
Import Async.
Context {Call : Type -> Type} {A : Type}.

Lemma cache_of_empty (func : string -> Promise Call A) : cache_of func ∅.
Proof. intros key p H. rewrite lookup_empty in H. discriminate. Qed.

(** A memoized function keeps its cache in order. *)
Lemma memoize_spec (func : string -> Promise Call A)
    (backend : forall R, Call R -> Settled R)
    (cache : gmap string (Settled A)) (key : string) :
  cache_of func cache ->
  cache_of func (memoize func backend cache key).2.
Proof.
  intros Hc. unfold memoize.
  destruct (cache !! key) as [outcome|] eqn:Hk; [exact Hc|].
  destruct (settle backend (func key)) as [outcome calls] eqn:Hrun.
  cbn [snd]. intros key' outcome' H'.
  destruct (decide (key = key')) as [<-|Hne].
  - rewrite lookup_insert_eq in H'. injection H' as <-.
    exists backend. rewrite Hrun. reflexivity.
  - rewrite lookup_insert_ne in H' by exact Hne. exact (Hc _ _ H').
Qed.



End AsyncFacts.

(* ===================================================================== *)
(** * The tenant creation form *)
(* ===================================================================== *)

Section AddTenantFormFacts.
Import Async AddTenantForm.

Variable t : string -> string.
Variable RegExp_test : string -> string -> bool.
Variable FormValidation_email : Js.val -> bool.
Variable validateInputAgainstRegEx : string -> string -> bool.
Variable ORGANIZATION_NAME_REGEX : string.
Variable INLINE_PASSWORD : string.

Local Abbreviation validateDomain := (validateDomain t RegExp_test).
Local Abbreviation validateOrganizationName :=
  (validateOrganizationName t RegExp_test ORGANIZATION_NAME_REGEX).
Local Abbreviation validateUsernameAgainstUserstoreRegExp :=
  (validateUsernameAgainstUserstoreRegExp t FormValidation_email
     validateInputAgainstRegEx).
Local Abbreviation handleValidate := (handleValidate t FormValidation_email).
Local Abbreviation handleSubmit := (handleSubmit INLINE_PASSWORD).

(** A promise that has resolved makes no remote call, whatever the
    backend. *)
Lemma settle_Resolve {A} (backend : forall R, Call R -> Settled R) (a : A) :
  settle backend (Resolve a : Promise Call A) = (Fulfilled a, []).
Proof. reflexivity. Qed.

(** The rules of [validateDomain], one lemma for each way out. *)

Lemma validateDomain_empty (config : Config) :
  validateDomain config "" = Resolve None.
Proof. reflexivity. Qed.

Lemma validateDomain_extension (config : Config) (value : string) :
  value <> "" ->
  enabled (isTenantDomainDotExtensionMandatory config) = true ->
  Js.lastIndexOf value "." <= 0 ->
  validateDomain config value
  = Resolve (Some (t "tenants:common.form.fields.domain.validations.domainMandatoryExtension")).
Proof.
  intros Hne Hflag Hdot. unfold AddTenantForm.validateDomain.
  destruct (Js.truthy (Js.Str value)) eqn:Htr.
  - rewrite Hflag. apply Z.leb_le in Hdot. rewrite Hdot. reflexivity.
  - apply truthy_Str in Htr. contradiction.
Qed.

(** ** Domains without the mandatory extension *)

(** C4: with the mandatory-extension flag set, a non-empty domain that
    has no dot at an index greater than 0 fails with the
    extension-specific message, and the promise has resolved without
    waiting for anything: run against any backend, it makes no remote
    call, so the availability check is never invoked. *)
Theorem validateDomain_missing_extension
    (config : Config) (value : string)
    (backend : forall R, Call R -> Settled R) :
  value <> "" ->
  (forall i, (0 < i)%nat -> String.get i value <> Some "."%char) ->
  enabled (isTenantDomainDotExtensionMandatory config) = true ->
  validateDomain config value
  = Resolve (Some (t "tenants:common.form.fields.domain.validations.domainMandatoryExtension"))
  /\ snd (settle backend (validateDomain config value)) = [].
Proof.
  intros Hne Hdot Hflag.
  apply lastIndexOf_dot_le_0 in Hdot.
  rewrite (validateDomain_extension config value Hne Hflag Hdot).
  split; reflexivity.
Qed.

(** The same through the memoized validator the field receives. *)
Lemma validateDomain_memoized_missing_extension
    (config : Config) (value : string)
    (backend : forall R, Call R -> Settled R)
    (cache : gmap string (Settled (option string))) :
  cache_of (validateDomain config) cache ->
  value <> "" ->
  Js.lastIndexOf value "." <= 0 ->
  enabled (isTenantDomainDotExtensionMandatory config) = true ->
  (validateDomain_memoized t RegExp_test config backend cache value).1
  = (Fulfilled
       (Some (t "tenants:common.form.fields.domain.validations.domainMandatoryExtension")),
     []).
Proof.
  intros Hc Hne Hdot Hflag. unfold validateDomain_memoized, memoize.
  destruct (cache !! value) as [outcome|] eqn:Hk.
  - destruct (Hc _ _ Hk) as [backend0 ->].
    rewrite (validateDomain_extension config value Hne Hflag Hdot).
    reflexivity.
  - rewrite (validateDomain_extension config value Hne Hflag Hdot).
    reflexivity.
Qed.

(** ** Domains that begin with a dot *)

(** The way out of [validateDomain] for a domain that begins with a
    dot. *)
Lemma dot_first_decision (config : Config) (rest : string) :
  let value := String "." rest in
  validateDomain config value
  = Resolve (Some (t
      (if enabled (isTenantDomainDotExtensionMandatory config)
          && (Js.lastIndexOf value "." <=? 0)
       then "tenants:common.form.fields.domain.validations.domainMandatoryExtension"
       else if match configured (tenantDomainRegex config) with
               | Some pattern => negb (RegExp_test pattern value)
               | None => false
               end
       then "tenants:common.form.fields.domain.validations.domainInvalidPattern"
       else "tenants:common.form.fields.domain.validations.domainStartingWithDot"))).
Proof.
  intros value. unfold AddTenantForm.validateDomain.
  assert (Js.truthy (Js.Str value) = true) as -> by reflexivity.
  cbn [negb].
  destruct (enabled (isTenantDomainDotExtensionMandatory config)
            && (Js.lastIndexOf value "." <=? 0)); [reflexivity|].
  destruct (match configured (tenantDomainRegex config) with
            | Some pattern => negb (RegExp_test pattern value)
            | None => false
            end); [reflexivity|].
  assert (Js.indexOf value "." = 0) as ->
      by (apply indexOf_dot_0; reflexivity).
  reflexivity.
Qed.

(** C5: a domain that begins with a dot is refused whatever the
    configuration, with no remote call: the validator has resolved to
    the message of the extension rule, of the pattern rule, or else of
    the leading-dot rule, which needs no pattern to be configured and
    is the one that answers whenever the two rules before it let the
    domain through. *)
Theorem validateDomain_leading_dot (config : Config) (rest : string) :
  let value := String "." rest in
  exists key,
    validateDomain config value = Resolve (Some (t key))
    /\ key
       = (if enabled (isTenantDomainDotExtensionMandatory config)
             && (Js.lastIndexOf value "." <=? 0)
          then "tenants:common.form.fields.domain.validations.domainMandatoryExtension"
          else if match configured (tenantDomainRegex config) with
                  | Some pattern => negb (RegExp_test pattern value)
                  | None => false
                  end
          then "tenants:common.form.fields.domain.validations.domainInvalidPattern"
          else "tenants:common.form.fields.domain.validations.domainStartingWithDot")
    /\ In key
         [ "tenants:common.form.fields.domain.validations.domainMandatoryExtension";
           "tenants:common.form.fields.domain.validations.domainInvalidPattern";
           "tenants:common.form.fields.domain.validations.domainStartingWithDot" ].
Proof.
  intros value. eexists. split; [apply dot_first_decision|].
  split; [reflexivity|].
  fold value.
  destruct (enabled (isTenantDomainDotExtensionMandatory config)
            && (Js.lastIndexOf value "." <=? 0)); [left; reflexivity|].
  destruct (match configured (tenantDomainRegex config) with
            | Some pattern => negb (RegExp_test pattern value)
            | None => false
            end); [right; left; reflexivity | right; right; left; reflexivity].
Qed.

(** With no pattern configured and the flag off, it is the leading-dot
    rule that refuses. *)
Lemma unconfigured_dot_first (rest : string) :
  validateDomain
    {| tenantDomainRegex := None; tenantDomainIllegalCharactersRegex := None;
       isTenantDomainDotExtensionMandatory := None |}
    (String "." rest)
  = Resolve (Some (t "tenants:common.form.fields.domain.validations.domainStartingWithDot")).
Proof. rewrite dot_first_decision. reflexivity. Qed.

(** ** The availability check of the tenant domain *)

(** A domain that passes the four local rules is checked remotely, and
    a check that rejects is an unavailable domain: the validator fails
    closed. *)
Lemma validateDomain_remote (config : Config) (value : string)
    (backend : forall R, Call R -> Settled R) :
  value <> "" ->
  enabled (isTenantDomainDotExtensionMandatory config) = false ->
  configured (tenantDomainRegex config) = None ->
  configured (tenantDomainIllegalCharactersRegex config) = None ->
  Js.indexOf value "." <> 0 ->
  settle backend (validateDomain config value)
  = (Fulfilled
       (match backend _ (getTenantDomainAvailability value) with
        | Fulfilled true => None
        | _ => Some (t "tenants:common.form.fields.domain.validations.domainUnavailable")
        end),
     [Invoked (getTenantDomainAvailability value)]).
Proof.
  intros Hne Hflag Hpattern Hillegal Hdot.
  unfold AddTenantForm.validateDomain.
  destruct (Js.truthy (Js.Str value)) eqn:Htr;
    [|apply truthy_Str in Htr; contradiction].
  rewrite Hflag, Hpattern, Hillegal. cbn [negb andb].
  apply Z.eqb_neq in Hdot. rewrite Hdot.
  cbn [settle].
  destruct (backend bool (getTenantDomainAvailability value)) as [[|]|];
    reflexivity.
Qed.

(** ** The empty input *)

(** Each entry of the errors object of [handleValidate] depends on its
    own field only. *)
Lemma handleValidate_domain (values : list (string * Js.val)) :
  Js.get "domain" (handleValidate values)
  = if Js.truthy (Js.get "domain" (Js.Obj values)) then Js.Undefined
    else Js.Str (t "tenants:common.form.fields.domain.validations.required").
Proof.
  unfold AddTenantForm.handleValidate, required.
  repeat match goal with
         | |- context [negb ?b] => destruct b; cbn [negb]
         end; reflexivity.
Qed.

Lemma handleValidate_username (values : list (string * Js.val)) :
  Js.get "username" (handleValidate values)
  = if Js.truthy (Js.get "username" (Js.Obj values)) then Js.Undefined
    else Js.Str (t "tenants:common.form.fields.username.validations.required").
Proof.
  unfold AddTenantForm.handleValidate, required.
  repeat match goal with
         | |- context [negb ?b] => destruct b; cbn [negb]
         end; reflexivity.
Qed.

Lemma handleValidate_organizationName (values : list (string * Js.val)) :
  Js.get "organizationName" (handleValidate values) = Js.Undefined.
Proof.
  unfold AddTenantForm.handleValidate, required.
  repeat match goal with
         | |- context [negb ?b] => destruct b; cbn [negb]
         end; reflexivity.
Qed.

(** C9: on the empty string each per-field validator resolves to
    [undefined] without a remote call; it is [handleValidate], at
    submit time, that reports an empty domain or username as
    required. *)
Theorem validators_resolve_undefined_on_empty
    (config : Config) (values : list (string * Js.val)) :
  validateDomain config "" = Resolve None
  /\ validateUsernameAgainstUserstoreRegExp "" = Resolve None
  /\ validateOrganizationName "" = Resolve None
  /\ Js.get "domain" (handleValidate (Js.set "domain" (Js.Str "") values))
     = Js.Str (t "tenants:common.form.fields.domain.validations.required")
  /\ Js.get "username" (handleValidate (Js.set "username" (Js.Str "") values))
     = Js.Str (t "tenants:common.form.fields.username.validations.required").
Proof.
  repeat split; try reflexivity.
  - rewrite handleValidate_domain. cbn [Js.get].
    rewrite lookup_set_eq. reflexivity.
  - rewrite handleValidate_username. cbn [Js.get].
    rewrite lookup_set_eq. reflexivity.
Qed.

(** ** The create-tenant payload *)

(** The owner object: the form values without the domain and the
    organization name, with the provisioning method set. *)
Lemma owner_lookup (values : list (string * Js.val)) (k : string) :
  Js.lookup k
    (Js.set "provisioningMethod" (Js.Str INLINE_PASSWORD)
       (Js.remove "organizationName" (Js.remove "domain" values)))
  = if String.eqb k "provisioningMethod" then Some (Js.Str INLINE_PASSWORD)
    else if String.eqb k "domain" || String.eqb k "organizationName" then None
    else Js.lookup k values.
Proof.
  destruct (String.eqb k "provisioningMethod") eqn:E1.
  - apply String.eqb_eq in E1. subst k. apply lookup_set_eq.
  - apply String.eqb_neq in E1.
    rewrite lookup_set_ne by congruence.
    destruct (String.eqb k "organizationName") eqn:E2.
    + apply String.eqb_eq in E2. subst k.
      rewrite lookup_remove_eq, orb_true_r. reflexivity.
    + apply String.eqb_neq in E2.
      rewrite lookup_remove_ne by congruence.
      destruct (String.eqb k "domain") eqn:E3; simpl.
      * apply String.eqb_eq in E3. subst k. apply lookup_remove_eq.
      * apply String.eqb_neq in E3. apply lookup_remove_ne. congruence.
Qed.

(** C2, as the code has it: the payload has the three keys [domain],
    [name] and [owners], in this order; [name] carries the
    organization name of the form; [owners] is an array of one object
    that carries every other form value and the provisioning method
    [INLINE_PASSWORD], and neither the domain nor the organization
    name. *)
Theorem handleSubmit_payload (values : list (string * Js.val)) :
  exists props owner,
    handleSubmit values = Js.Obj props
    /\ Js.keys props = ["domain"; "name"; "owners"]
    /\ Js.get "domain" (handleSubmit values) = Js.get "domain" (Js.Obj values)
    /\ Js.get "name" (handleSubmit values)
       = Js.get "organizationName" (Js.Obj values)
    /\ Js.get "owners" (handleSubmit values) = Js.Arr [Js.Obj owner]
    /\ forall k,
         Js.lookup k owner
         = if String.eqb k "provisioningMethod"
           then Some (Js.Str INLINE_PASSWORD)
           else if String.eqb k "domain" || String.eqb k "organizationName"
           then None
           else Js.lookup k values.
Proof.
  eexists _, _. split; [reflexivity|].
  split; [reflexivity|].
  split; [reflexivity|].
  split; [reflexivity|].
  split; [reflexivity|].
  apply owner_lookup.
Qed.

End AddTenantFormFacts.

(** C2, as the specification words it, fails on form values the form
    accepts: the payload has no [organizationName] and no [owner]. *)
Lemma handleSubmit_not_TenantCreationRequest :
  AddTenantForm.accepted (fun k => k) AddTenantForm.sampleEmailCheck
    AddTenantForm.sampleValues = true
  /\ ~ AddTenantForm.TenantCreationRequest AddTenantForm.sampleValues
         (AddTenantForm.handleSubmit "inline-password"
            AddTenantForm.sampleValues).
Proof.
  split; [reflexivity|].
  intros (_ & Hname & _). discriminate Hname.
Qed.

(** The payload built from the sample values. *)
Example handleSubmit_sample :
  AddTenantForm.handleSubmit "inline-password" AddTenantForm.sampleValues
  = Js.Obj
      [ ("domain", Js.Str "acme.com");
        ("name", Js.Str "Acme");
        ("owners",
          Js.Arr [ Js.Obj [ ("firstname", Js.Str "Ann");
                            ("lastname", Js.Str "Lee");
                            ("username", Js.Str "ann@acme.com");
                            ("email", Js.Str "ann@acme.com");
                            ("password", Js.Str "S3cret!pass");
                            ("provisioningMethod", Js.Str "inline-password") ] ]) ].
Proof. reflexivity. Qed.

(** A domain without a dot under the mandatory-extension policy. *)
Lemma validateDomain_missing_extension_witness :
  Async.settle AddTenantForm.backend_free
    (AddTenantForm.validateDomain (fun k => k) (fun _ _ => true)
       {| AddTenantForm.tenantDomainRegex := Some "^[a-z0-9.-]+$";
          AddTenantForm.tenantDomainIllegalCharactersRegex := None;
          AddTenantForm.isTenantDomainDotExtensionMandatory := Some true |}
       "localhost")
  = (Async.Fulfilled
       (Some "tenants:common.form.fields.domain.validations.domainMandatoryExtension"),
     []).
Proof.
  pose proof (validateDomain_missing_extension (fun k => k) (fun _ _ => true)
    {| AddTenantForm.tenantDomainRegex := Some "^[a-z0-9.-]+$";
       AddTenantForm.tenantDomainIllegalCharactersRegex := None;
       AddTenantForm.isTenantDomainDotExtensionMandatory := Some true |}
    "localhost" AddTenantForm.backend_free) as H.
  destruct H as [Hres Hcalls].
  - discriminate.
  - intros i Hi.
    do 9 (destruct i as [|i]; [first [lia | discriminate]|]).
    destruct i; discriminate.
  - reflexivity.
  - rewrite Hres. reflexivity.
Defined.

(* ===================================================================== *)
(** * The organization discovery assigner *)
(* ===================================================================== *)

Section AddOrganizationDiscoveryDomainsFacts.
Import Async.
Import AddOrganizationDiscoveryDomains.

Variable t : string -> string.
Variable FormValidation_domain : Js.val -> bool.

(** ** The organization loader *)

Lemma withNextCursor_twice (c c' : Js.val) (s : State) :
  withNextCursor c' (withNextCursor c s) = withNextCursor c' s.
Proof. reflexivity. Qed.

(** What [links.forEach] does to the state and to its flag. *)
Lemma scanLinks_spec (links : list OrganizationLink) :
  forall (nextFound : bool) (s : State),
    scanLinks links nextFound s
    = Done (nextFound || bool_decide (is_Some (lastNextCursor links)))
        (match lastNextCursor links with
         | Some cursor => withNextCursor cursor s
         | None => s
         end).
Proof.
  induction links as [|link rest IH]; intros nextFound s.
  - simpl. rewrite orb_false_r. reflexivity.
  - cbn [scanLinks lastNextCursor].
    destruct (String.eqb (rel link) "next") eqn:Hrel.
    + change (scanLinks rest true
                (withNextCursor (Js.index (Js.split (href link) "after=") 1) s)
              = Done (nextFound || bool_decide (is_Some
                    (match lastNextCursor rest with
                     | Some cursor => Some cursor
                     | None => Some (Js.index (Js.split (href link) "after=") 1)
                     end)))
                  (match match lastNextCursor rest with
                         | Some cursor => Some cursor
                         | None => Some (Js.index (Js.split (href link) "after=") 1)
                         end with
                   | Some cursor => withNextCursor cursor s
                   | None => s
                   end)).
      rewrite IH.
      destruct (lastNextCursor rest) as [cursor|]; simpl;
        rewrite orb_true_r; reflexivity.
    + rewrite IH. destruct (lastNextCursor rest); reflexivity.
Qed.

Lemma lastNextCursor_None (links : list OrganizationLink) :
  lastNextCursor links = None
  <-> Forall (fun link => rel link <> "next") links.
Proof.
  induction links as [|link rest IH]; cbn [lastNextCursor].
  - split; [constructor | reflexivity].
  - destruct (lastNextCursor rest) as [cursor|].
    + split; [discriminate|].
      intros H. inversion H as [|? ? _ Hrest]; subst.
      apply IH in Hrest. discriminate.
    + destruct (String.eqb (rel link) "next") eqn:Hrel.
      * apply String.eqb_eq in Hrel. split; [discriminate|].
        intros H. inversion H; subst. contradiction.
      * apply String.eqb_neq in Hrel. split; [|reflexivity].
        intros _. constructor; [exact Hrel | apply IH; reflexivity].
Qed.

(** C3, as the code has it: after a page has arrived, its
    organizations are appended to those accumulated and the request is
    switched off; if the links hold no [next] relation, the cursor
    becomes the empty string and [hasMore] false; otherwise the cursor
    becomes the text that follows [after=] in the address of the last
    [next] link, and [hasMore] is whether there is such a text. *)
Theorem organizationListResponseEffect_page
    (response : OrganizationListResponse) (s : State) :
  let links := default [] (response_links response) in
  exists s',
    organizationListResponseEffect (Some response) false false s = Done tt s'
    /\ organizations s'
       = organizations s ++ default [] (response_organizations response)
    /\ fetchRequest s' = None
    /\ match lastNextCursor links with
       | Some cursor =>
           afterCursor s' = cursor
           /\ hasMoreOrganizations s' = Js.truthy cursor
       | None =>
           afterCursor s' = Js.Str "" /\ hasMoreOrganizations s' = false
       end
    /\ (lastNextCursor links = None
        <-> Forall (fun link => rel link <> "next") links).
Proof.
  intros links. unfold organizationListResponseEffect.
  cbn [orb]. unfold mbind, M_bind. cbn [setParams_with modify bind_res].
  cbn [setOrganizations_with modify bind_res].
  rewrite scanLinks_spec. cbn [bind_res orb]. fold links.
  destruct (lastNextCursor links) as [cursor|] eqn:Hlast.
  - eexists. split; [reflexivity|].
    repeat split; try reflexivity; try discriminate.
    intros H. apply lastNextCursor_None in H. congruence.
  - eexists. split; [reflexivity|].
    repeat split; try reflexivity.
    + intros _. apply lastNextCursor_None. exact Hlast.
Qed.

Example organizationListResponseEffect_samplePage :
  let s' := reached (organizationListResponseEffect (Some samplePage)
                       false false initialState) in
  map name (organizations s') = ["Acme"; "Acme Labs"]
  /\ afterCursor s' = Js.Str "Q1VSU09SMQ"
  /\ hasMoreOrganizations s' = true.
Proof. repeat split; reflexivity. Qed.

(** An effect that runs while the request is still in flight, or
    before any page has arrived, leaves the state alone. *)
Lemma organizationListResponseEffect_pending
    (response : option OrganizationListResponse)
    (isLoading isValidating : bool) (s : State) :
  response = None \/ isLoading = true \/ isValidating = true ->
  organizationListResponseEffect response isLoading isValidating s = Done tt s.
Proof.
  intros H. unfold organizationListResponseEffect.
  destruct response as [r|]; [|reflexivity].
  destruct H as [H | [-> | ->]]; [discriminate | reflexivity |].
  rewrite orb_true_r. reflexivity.
Qed.

(** ** A new filter text *)

(** What the function under the debounce does. *)
Lemma handleInputChange_spec (data : option string) (s : State) :
  exists s',
    handleInputChange data s = Done tt s'
    /\ organizations s' = []
    /\ afterCursor s' = Js.Str ""
    /\ inputValue s' = default "" data
    /\ fetchRequest s'
       = Some (if Js.truthy (Js.Str (default "" data))
               then Js.Str (queryPrefix +:+ default "" data)
               else Js.Str "",
               limit (params s), Js.Null).
Proof.
  eexists. split; [reflexivity|]. repeat split; reflexivity.
Qed.

(** C6: when the debounce timer of a change of the filter text runs
    out, one transition empties the accumulated organizations, sets the
    after-cursor to the empty string and switches the request on, for
    the new filter and with no cursor: the request that follows starts
    from an empty sequence. *)
Theorem handleInputChange_clears
    (data : option string) (called now : Z) (timer : option Pending)
    (s : State) :
  wait <= now - called ->
  exists s',
    debounced_expire now (debounced_call called data timer) s = Done None s'
    /\ handleInputChange data s = Done tt s'
    /\ organizations s' = []
    /\ afterCursor s' = Js.Str ""
    /\ inputValue s' = default "" data
    /\ fetchRequest s'
       = Some (if Js.truthy (Js.Str (default "" data))
               then Js.Str (queryPrefix +:+ default "" data)
               else Js.Str "",
               limit (params s), Js.Null).
Proof.
  intros Hwait.
  destruct (handleInputChange_spec data s) as (s' & Hrun & Hrest).
  exists s'. split; [|split; [exact Hrun | exact Hrest]].
  unfold debounced_expire, debounced_call. cbn [lastCallTime lastArgs].
  apply Z.leb_le in Hwait. rewrite Hwait.
  unfold mbind, M_bind. rewrite Hrun. reflexivity.
Qed.

(** Before the wait has elapsed nothing happens. *)
Lemma debounced_expire_early
    (data : option string) (called now : Z) (timer : option Pending)
    (s : State) :
  now - called < wait ->
  debounced_expire now (debounced_call called data timer) s
  = Done (debounced_call called data timer) s.
Proof.
  intros Hearly. unfold debounced_expire, debounced_call.
  cbn [lastCallTime lastArgs].
  apply Z.leb_gt in Hearly. rewrite Hearly. reflexivity.
Qed.

(** Loading more keeps what is accumulated and asks for the page after
    the cursor; it does nothing when the list is exhausted. *)
Lemma loadMoreOrganizations_spec (s : State) :
  exists s',
    loadMoreOrganizations s = Done tt s'
    /\ organizations s' = organizations s
    /\ afterCursor s' = afterCursor s
    /\ (if hasMoreOrganizations s
        then after (params s') = Js.or (afterCursor s) Js.Null
             /\ shouldFetch (params s') = true
        else s' = s).
Proof.
  unfold loadMoreOrganizations, mbind, M_bind. cbn [read bind_res].
  destruct (hasMoreOrganizations s) eqn:Hmore; cbn [negb].
  - eexists. split; [reflexivity|]. repeat split; reflexivity.
  - eexists. split; [reflexivity|]. repeat split; reflexivity.
Qed.

(** ** A failed fetch *)

(** C7: the effect of a failed fetch adds one alert of level [ERROR]
    to the store and changes nothing else, so the accumulated
    organizations and the after-cursor stay as they were.  The alert
    carries the description of the error body when it has one, with
    the message of the body or else the translated default; without a
    description it is the generic alert. *)
Theorem organizationsFetchRequestErrorEffect_alert
    (error : Js.val) (s : State) :
  Js.truthy error = true ->
  let data := Js.get "data" (Js.get "response" error) in
  let alert :=
    if Js.truthy (Js.get "description" data)
    then {| description := Js.get "description" data;
            level := ERROR;
            message :=
              Js.coalesce (Js.get "message" data)
                (Js.Str (t "organizations:notifications.getOrganizationList.error.message")) |}
    else {| description :=
              Js.Str (t "organizations:notifications.getOrganizationList.genericError.description");
            level := ERROR;
            message :=
              Js.Str (t "organizations:notifications.getOrganizationList.genericError.message") |} in
  organizationsFetchRequestErrorEffect t error s = Done tt (withAlert alert s)
  /\ organizations (withAlert alert s) = organizations s
  /\ afterCursor (withAlert alert s) = afterCursor s
  /\ alerts (withAlert alert s) = alerts s ++ [alert]
  /\ level alert = ERROR.
Proof.
  intros Herr data alert. subst alert.
  unfold organizationsFetchRequestErrorEffect. rewrite Herr. cbn [negb].
  fold data.
  destruct (Js.truthy (Js.get "description" data)) eqn:Hdesc.
  - assert (Js.coalesce (Js.get "description" data)
              (Js.Str (t "organizations:notifications.getOrganizationList.error.description"))
            = Js.get "description" data) as ->.
    { destruct (Js.get "description" data); try discriminate; reflexivity. }
    repeat split; reflexivity.
  - repeat split; reflexivity.
Qed.

(** Without an error the effect does nothing. *)
Lemma organizationsFetchRequestErrorEffect_none (error : Js.val) (s : State) :
  Js.truthy error = false ->
  organizationsFetchRequestErrorEffect t error s = Done tt s.
Proof.
  intros Herr. unfold organizationsFetchRequestErrorEffect.
  rewrite Herr. reflexivity.
Qed.

(** ** The submit button *)

Lemma isEmpty_Arr_Str (l : list string) :
  Js.isEmpty (Js.Arr (map Js.Str l)) = false <-> l <> [].
Proof.
  destruct l; simpl; split; congruence.
Qed.

(** The [disabled] property of the submit button, when the button is
    rendered: off exactly when the list of email domains is not empty,
    an organization name is selected and the [submitting] flag of the
    form is down. *)
Theorem submitButton_enabled
    (isReadOnly submitting : bool) (values : Js.val) (s : State)
    (button : PrimaryButton) :
  submitButton isReadOnly submitting values s = Some button ->
  disabled button = false
  <-> (emailDomainList s <> []
       /\ Js.isEmpty (Js.get "organizationName" values) = false
       /\ submitting = false).
Proof.
  clear t FormValidation_domain.
  unfold submitButton. destruct isReadOnly; cbn [negb]; [discriminate|].
  intros [= <-]. cbn [disabled].
  rewrite !orb_false_iff.
  change (match map Js.Str (emailDomainList s) with
          | [] => true
          | _ :: _ => false
          end)
    with (Js.isEmpty (Js.Arr (map Js.Str (emailDomainList s)))).
  rewrite isEmpty_Arr_Str. tauto.
Qed.

(** In the read-only view there is no button. *)
Lemma submitButton_readOnly (submitting : bool) (values : Js.val) (s : State) :
  submitButton true submitting values s = None.
Proof. reflexivity. Qed.

(** ** Submission *)

Lemma findByName_None (organizationName : Js.val) (orgs : list Organization) :
  findByName organizationName orgs = None
  <-> Forall (fun o => organizationName <> Js.Str (name o)) orgs.
Proof.
  unfold findByName. induction orgs as [|o rest IH]; cbn [List.find].
  - split; [constructor | reflexivity].
  - destruct (Js.strictEqualsString (name o) organizationName) eqn:Heq.
    + split; [discriminate|].
      intros H. inversion H as [|? ? Hne _]; subst. exfalso. apply Hne.
      destruct organizationName; try discriminate.
      simpl in Heq. apply String.eqb_eq in Heq. congruence.
    + rewrite IH. split.
      * intros H. constructor; [|exact H].
        intros ->. simpl in Heq. rewrite String.eqb_refl in Heq. discriminate.
      * intros H. inversion H; assumption.
Qed.

(** C10: the submit handler throws a [TypeError], before any request,
    exactly when no accumulated organization has the submitted name;
    when one has, the handler asks to add the email domains to the
    first organization of that name. *)
Theorem handleSubmit_lookup (values : Js.val) (s : State) :
  let organizationName := Js.get "organizationName" values in
  (Forall (fun o => organizationName <> Js.Str (name o)) (organizations s)
   <-> handleSubmit t values s = Throw TypeError s)
  /\ (Exists (fun o => organizationName = Js.Str (name o)) (organizations s)
      <-> exists organization k,
            findByName organizationName (organizations s) = Some organization
            /\ handleSubmit t values s
               = Susp (addOrganizationEmailDomain (id organization)
                         (emailDomainList s)) s k).
Proof.
  intros organizationName.
  pose proof (findByName_None organizationName (organizations s)) as Hnone.
  unfold handleSubmit, mbind, M_bind. cbn [read bind_res].
  fold organizationName.
  destruct (findByName organizationName (organizations s)) as [o|] eqn:Hfind.
  - split.
    + split.
      * intros H. apply Hnone in H. discriminate.
      * discriminate.
    + split.
      * intros _. eexists o, _. split; reflexivity.
      * intros _. apply List.Exists_exists.
        unfold findByName in Hfind. apply List.find_some in Hfind.
        destruct Hfind as [Hin Heq]. exists o. split; [exact Hin|].
        destruct organizationName; try discriminate.
        simpl in Heq. apply String.eqb_eq in Heq. congruence.
  - split.
    + split; [reflexivity|]. intros _. apply Hnone. reflexivity.
    + split.
      * intros H. exfalso. apply List.Exists_exists in H.
        destruct H as (o & Hin & Heq).
        assert (Forall (fun o => organizationName <> Js.Str (name o))
                  (organizations s)) as Hall by (apply Hnone; reflexivity).
        rewrite List.Forall_forall in Hall. exact (Hall o Hin Heq).
      * intros (o & k & Hsome & _). discriminate.
Qed.

(** ** The email domains *)

Lemma lastElement_snoc (old : list string) (entry : string) :
  Js.lastElement (old ++ [entry]) = Js.Str entry.
Proof. unfold Js.lastElement. rewrite last_snoc. reflexivity. Qed.

Lemma pop_snoc (old : list string) (entry : string) :
  Js.pop (old ++ [entry]) = old.
Proof. apply removelast_last. Qed.

(** The check of the last entry of the array behind [ref]: the entry
    stays when it has the format of a domain and the remote check
    either answers that it is available or rejects; otherwise it is
    popped.  The reference the component holds is not touched. *)
Lemma validateEmailDomain_settled (backend : forall R, Call R -> Settled R)
    (ref : nat) (old : list string) (entry : string) (s : State) :
  arrays s !! ref = Some (old ++ [entry]) ->
  let s' := (settle backend (validateEmailDomain t FormValidation_domain ref s)).1.1 in
  arrays s' !! ref
  = Some (if FormValidation_domain (Js.Str entry)
             && match backend _ (checkEmailDomainAvailable (Js.Str entry)) with
                | Fulfilled response => Js.truthy (Js.get "available" response)
                | Rejected => true
                end
          then old ++ [entry]
          else old)
  /\ emailDomains s' = emailDomains s.
Proof.
  intros Href.
  unfold validateEmailDomain, mbind, M_bind. cbn [read bind_res].
  unfold array. rewrite Href. cbn [from_option Datatypes.id].
  rewrite lastElement_snoc.
  destruct (FormValidation_domain (Js.Str entry)) eqn:Hvalid; cbn [negb andb].
  - unfold checkEmailDomainAvailability, mbind, M_bind.
    cbn [await bind_res settle].
    destruct (backend Js.val (checkEmailDomainAvailable (Js.Str entry)))
      as [response|] eqn:Hcall.
    + cbn [mret M_ret bind_res].
      destruct (Js.truthy (Js.get "available" response)) eqn:Havail;
        cbn [negb].
      * cbn. split; [exact Href | reflexivity].
      * destruct s; cbn in *. rewrite Href.
        rewrite lookup_insert_eq, pop_snoc. split; reflexivity.
    + destruct s; cbn in *. split; [exact Href | reflexivity].
  - destruct s; cbn in *. rewrite Href.
    rewrite lookup_insert_eq, pop_snoc. split; reflexivity.
Qed.

(** Adding an entry comes down to checking the last entry of a new
    array, the current entries followed by the new one, that the
    component now holds. *)
Lemma addEntry_unfold (entry : string) (s : State) :
  let ref := fresh (dom (arrays s)) in
  addEntry t FormValidation_domain entry s
  = validateEmailDomain t FormValidation_domain ref
      {| emailDomains := ref;
         isEmailDomainDataError := isEmailDomainDataError s;
         isEmailDomainAvailableError := isEmailDomainAvailableError s;
         organizations := organizations s;
         hasMoreOrganizations := hasMoreOrganizations s;
         inputValue := inputValue s;
         afterCursor := afterCursor s;
         params := params s;
         arrays := <[ref := emailDomainList s ++ [entry]]> (arrays s);
         alerts := alerts s;
         history := history s |}.
Proof.
  intros ref. destruct s as [e f1 f2 os hm iv ac ps heap al hs].
  unfold addEntry, array_new, onChange, mbind, M_bind.
  cbn [read bind_res updateArrays modify mret M_ret setEmailDomains
       setEmailDomains_with arrays emailDomains isEmailDomainDataError
       isEmailDomainAvailableError organizations hasMoreOrganizations
       inputValue afterCursor params alerts history].
  fold ref. unfold array at 1. cbn [arrays].
  rewrite lookup_insert_eq. cbn [from_option Datatypes.id].
  rewrite length_app, Nat.add_1_r. reflexivity.
Qed.

(** The list of email domains once the check of a new entry has
    settled. *)
Lemma addEntry_settled (backend : forall R, Call R -> Settled R)
    (entry : string) (s : State) :
  emailDomainList
    (settle backend (addEntry t FormValidation_domain entry s)).1.1
  = if FormValidation_domain (Js.Str entry)
       && match backend _ (checkEmailDomainAvailable (Js.Str entry)) with
          | Fulfilled response => Js.truthy (Js.get "available" response)
          | Rejected => true
          end
    then emailDomainList s ++ [entry]
    else emailDomainList s.
Proof.
  rewrite addEntry_unfold.
  match goal with
  | |- context [validateEmailDomain _ _ ?r ?s1] =>
      destruct (validateEmailDomain_settled backend r (emailDomainList s)
                  entry s1) as [Harr Href]
  end.
  { cbn [arrays]. apply lookup_insert_eq. }
  unfold emailDomainList at 1. unfold array. rewrite Href. cbn [emailDomains].
  rewrite Harr. cbn [from_option Datatypes.id].
  destruct (_ && _); reflexivity.
Qed.

(** An entry that passes both checks stays; one that has not the
    format of a domain, or that the backend answers is not available,
    is taken off again. *)
Lemma addEntry_checked (backend : forall R, Call R -> Settled R)
    (entry : string) (s : State) :
  backend _ (checkEmailDomainAvailable (Js.Str entry)) <> Rejected ->
  emailDomainList
    (settle backend (addEntry t FormValidation_domain entry s)).1.1
  = if passesBothChecks FormValidation_domain backend entry
    then emailDomainList s ++ [entry]
    else emailDomainList s.
Proof.
  intros Hcall. rewrite addEntry_settled. unfold passesBothChecks.
  destruct (backend Js.val (checkEmailDomainAvailable (Js.Str entry)));
    [reflexivity | contradiction].
Qed.

End AddOrganizationDiscoveryDomainsFacts.

(* ===================================================================== *)
(** * The components on concrete inputs *)
(* ===================================================================== *)

(** C1 on the code: the user adds [example.com], which has the format
    of a domain, and the request of the availability check rejects.
    An alert is dispatched, but the entry is not popped and no error
    flag is raised: once the check has settled, the list the component
    holds, and would submit, contains an entry that did not pass the
    remote check. *)
Theorem addEntry_rejected_check_keeps_entry :
  let D := AddOrganizationDiscoveryDomains.addEntry (fun k => k)
             AddOrganizationDiscoveryDomains.sampleDomainCheck "example.com"
             AddOrganizationDiscoveryDomains.initialState in
  let outcome :=
    AddOrganizationDiscoveryDomains.settle
      AddOrganizationDiscoveryDomains.backend_down D in
  AddOrganizationDiscoveryDomains.passesBothChecks
    AddOrganizationDiscoveryDomains.sampleDomainCheck
    AddOrganizationDiscoveryDomains.backend_down "example.com" = false
  /\ outcome.2
     = [Async.Invoked
          (AddOrganizationDiscoveryDomains.checkEmailDomainAvailable
             (Js.Str "example.com"))]
  /\ AddOrganizationDiscoveryDomains.emailDomainList outcome.1.1
     = ["example.com"]
  /\ AddOrganizationDiscoveryDomains.isEmailDomainAvailableError outcome.1.1
     = false
  /\ AddOrganizationDiscoveryDomains.isEmailDomainDataError outcome.1.1 = false
  /\ AddOrganizationDiscoveryDomains.alerts outcome.1.1
     = [ {| AddOrganizationDiscoveryDomains.description :=
              Js.Str "organizationDiscovery:notifications.checkEmailDomain.error.description";
            AddOrganizationDiscoveryDomains.level :=
              AddOrganizationDiscoveryDomains.ERROR;
            AddOrganizationDiscoveryDomains.message :=
              Js.Str "organizationDiscovery:notifications.checkEmailDomain.error.message" |} ].
Proof. vm_compute. repeat split; reflexivity. Qed.

(** The two ways the check takes an entry off again. *)
Example addEntry_not_a_domain :
  let outcome :=
    AddOrganizationDiscoveryDomains.settle
      AddOrganizationDiscoveryDomains.backend_free
      (AddOrganizationDiscoveryDomains.addEntry (fun k => k)
         AddOrganizationDiscoveryDomains.sampleDomainCheck "not-a-domain"
         AddOrganizationDiscoveryDomains.initialState) in
  AddOrganizationDiscoveryDomains.emailDomainList outcome.1.1 = []
  /\ AddOrganizationDiscoveryDomains.isEmailDomainDataError outcome.1.1 = true
  /\ AddOrganizationDiscoveryDomains.isEmailDomainAvailableError outcome.1.1
     = false
  /\ outcome.2 = [].
Proof. vm_compute. repeat split; reflexivity. Qed.

Example addEntry_taken :
  let outcome :=
    AddOrganizationDiscoveryDomains.settle
      AddOrganizationDiscoveryDomains.backend_taken
      (AddOrganizationDiscoveryDomains.addEntry (fun k => k)
         AddOrganizationDiscoveryDomains.sampleDomainCheck "example.com"
         AddOrganizationDiscoveryDomains.initialState) in
  AddOrganizationDiscoveryDomains.emailDomainList outcome.1.1 = []
  /\ AddOrganizationDiscoveryDomains.isEmailDomainDataError outcome.1.1 = false
  /\ AddOrganizationDiscoveryDomains.isEmailDomainAvailableError outcome.1.1
     = true.
Proof. vm_compute. repeat split; reflexivity. Qed.

(** Two pages under the filter [acme]: the second request carries the
    cursor of the first page, and the organizations of the second page
    follow those of the first. *)
Example two_pages :
  let D := AddOrganizationDiscoveryDomains.reached in
  let s1 := D (AddOrganizationDiscoveryDomains.handleInputChange (Some "acme")
                 AddOrganizationDiscoveryDomains.initialState) in
  let s2 := D (AddOrganizationDiscoveryDomains.organizationListResponseEffect
                 (Some AddOrganizationDiscoveryDomains.samplePage)
                 false false s1) in
  let s3 := D (AddOrganizationDiscoveryDomains.loadMoreOrganizations s2) in
  let s4 := D (AddOrganizationDiscoveryDomains.organizationListResponseEffect
                 (Some AddOrganizationDiscoveryDomains.sampleLastPage)
                 false false s3) in
  AddOrganizationDiscoveryDomains.fetchRequest s1
  = Some (Js.Str "name co acme", 15, Js.Null)
  /\ AddOrganizationDiscoveryDomains.fetchRequest s3
     = Some (Js.Str "name co acme", 15, Js.Str "Q1VSU09SMQ")
  /\ map AddOrganizationDiscoveryDomains.name
       (AddOrganizationDiscoveryDomains.organizations s4)
     = ["Acme"; "Acme Labs"; "Acme West"]
  /\ AddOrganizationDiscoveryDomains.hasMoreOrganizations s4 = false
  /\ D (AddOrganizationDiscoveryDomains.loadMoreOrganizations s4) = s4.
Proof. repeat split; reflexivity. Qed.

(** C3, as the specification words it, fails on a page whose [next]
    link carries no cursor: the link is found, yet [hasMore] is
    false. *)
Lemma organizationListResponseEffect_next_without_cursor :
  let links :=
    default [] (AddOrganizationDiscoveryDomains.response_links
                  AddOrganizationDiscoveryDomains.samplePageWithoutCursor) in
  let s' :=
    AddOrganizationDiscoveryDomains.reached
      (AddOrganizationDiscoveryDomains.organizationListResponseEffect
         (Some AddOrganizationDiscoveryDomains.samplePageWithoutCursor)
         false false AddOrganizationDiscoveryDomains.initialState) in
  ~ (Exists (fun link => AddOrganizationDiscoveryDomains.rel link = "next") links
     -> AddOrganizationDiscoveryDomains.hasMoreOrganizations s' = true).
Proof.
  intros links s' H.
  assert (AddOrganizationDiscoveryDomains.hasMoreOrganizations s' = false)
    as Hfalse by reflexivity.
  rewrite H in Hfalse; [discriminate|].
  apply Exists_cons_hd. reflexivity.
Qed.

(** A change of the filter text, 100 ms after the last keystroke. *)
Lemma handleInputChange_clears_witness :
  exists s',
    AddOrganizationDiscoveryDomains.debounced_expire 1100
      (AddOrganizationDiscoveryDomains.debounced_call 1000 (Some "acme") None)
      (AddOrganizationDiscoveryDomains.reached
         (AddOrganizationDiscoveryDomains.organizationListResponseEffect
            (Some AddOrganizationDiscoveryDomains.samplePage) false false
            AddOrganizationDiscoveryDomains.initialState))
    = AddOrganizationDiscoveryDomains.Done None s'
    /\ AddOrganizationDiscoveryDomains.organizations s' = []
    /\ AddOrganizationDiscoveryDomains.afterCursor s' = Js.Str ""
    /\ AddOrganizationDiscoveryDomains.fetchRequest s'
       = Some (Js.Str "name co acme", 15, Js.Null).
Proof.
  destruct (handleInputChange_clears (Some "acme") 1000 1100 None
              (AddOrganizationDiscoveryDomains.reached
                 (AddOrganizationDiscoveryDomains.organizationListResponseEffect
                    (Some AddOrganizationDiscoveryDomains.samplePage)
                    false false AddOrganizationDiscoveryDomains.initialState)))
    as (s' & Hrun & _ & Horgs & Hcursor & _ & Hfetch).
  - unfold AddOrganizationDiscoveryDomains.wait. lia.
  - exists s'. repeat split; assumption.
Defined.

(** A failed fetch with a structured error body, after a first page. *)
Lemma organizationsFetchRequestErrorEffect_alert_witness :
  let s :=
    AddOrganizationDiscoveryDomains.reached
      (AddOrganizationDiscoveryDomains.organizationListResponseEffect
         (Some AddOrganizationDiscoveryDomains.samplePage) false false
         AddOrganizationDiscoveryDomains.initialState) in
  let s' :=
    AddOrganizationDiscoveryDomains.reached
      (AddOrganizationDiscoveryDomains.organizationsFetchRequestErrorEffect
         (fun k => k) AddOrganizationDiscoveryDomains.sampleError s) in
  AddOrganizationDiscoveryDomains.organizations s'
  = AddOrganizationDiscoveryDomains.organizations s
  /\ AddOrganizationDiscoveryDomains.afterCursor s' = Js.Str "Q1VSU09SMQ"
  /\ AddOrganizationDiscoveryDomains.alerts s'
     = [ {| AddOrganizationDiscoveryDomains.description :=
              Js.Str "Invalid filter.";
            AddOrganizationDiscoveryDomains.level :=
              AddOrganizationDiscoveryDomains.ERROR;
            AddOrganizationDiscoveryDomains.message :=
              Js.Str "Unable to list organizations." |} ].
Proof.
  intros s s'. subst s'.
  destruct (organizationsFetchRequestErrorEffect_alert (fun k => k)
              AddOrganizationDiscoveryDomains.sampleError s eq_refl)
    as (Hrun & Horgs & Hcursor & Halerts & _).
  rewrite Hrun. cbn [AddOrganizationDiscoveryDomains.reached].
  split; [exact Horgs|]. split; [rewrite Hcursor; reflexivity|].
  rewrite Halerts. reflexivity.
Defined.

(** The submit button with one email domain and an organization
    selected. *)
Lemma submitButton_enabled_witness :
  let s :=
    (AddOrganizationDiscoveryDomains.settle
       AddOrganizationDiscoveryDomains.backend_free
       (AddOrganizationDiscoveryDomains.addEntry (fun k => k)
          AddOrganizationDiscoveryDomains.sampleDomainCheck "example.com"
          AddOrganizationDiscoveryDomains.initialState)).1.1 in
  let values := Js.Obj [("organizationName", Js.Str "Acme")] in
  AddOrganizationDiscoveryDomains.submitButton false false values s
  = Some {| AddOrganizationDiscoveryDomains.disabled := false;
            AddOrganizationDiscoveryDomains.loading := false |}
  /\ AddOrganizationDiscoveryDomains.emailDomainList s <> []
  /\ AddOrganizationDiscoveryDomains.submitButton false true values s
     = Some {| AddOrganizationDiscoveryDomains.disabled := true;
               AddOrganizationDiscoveryDomains.loading := true |}.
Proof.
  intros s values.
  assert (AddOrganizationDiscoveryDomains.submitButton false false values s
          = Some {| AddOrganizationDiscoveryDomains.disabled := false;
                    AddOrganizationDiscoveryDomains.loading := false |})
    as Hbutton by (vm_compute; reflexivity).
  pose proof (submitButton_enabled false false values s _ Hbutton) as Hiff.
  split; [exact Hbutton|].
  split; [apply Hiff; reflexivity|].
  vm_compute. reflexivity.
Defined.

(* ===================================================================== *)
(** * More on the tenant creation form *)
(* ===================================================================== *)

Section PropertyLists.
Import Js.

Lemma set_set (k : string) (v v' : val) (props : list (string * val)) :
  set k v' (set k v props) = set k v' props.
Proof.
  induction props as [|[k0 v0] rest IH]; simpl.
  - rewrite String.eqb_refl. reflexivity.
  - destruct (String.eqb k k0) eqn:E; simpl.
    + rewrite String.eqb_refl. reflexivity.
    + rewrite E, IH. reflexivity.
Qed.

Lemma remove_set_ne (k k' : string) (v : val) (props : list (string * val)) :
  k <> k' -> remove k (set k' v props) = set k' v (remove k props).
Proof.
  intros Hne. induction props as [|[k0 v0] rest IH]; simpl.
  - destruct (String.eqb k k') eqn:E; [|reflexivity].
    apply String.eqb_eq in E. contradiction.
  - destruct (String.eqb k' k0) eqn:E'; simpl.
    + apply String.eqb_eq in E'. subst k0.
      destruct (String.eqb k k') eqn:E; simpl.
      * apply String.eqb_eq in E. contradiction.
      * rewrite String.eqb_refl. reflexivity.
    + destruct (String.eqb k k0) eqn:E; simpl.
      * exact IH.
      * rewrite E', IH. reflexivity.
Qed.

End PropertyLists.

Section AddTenantFormMore.
Import Async AddTenantForm.

Variable t : string -> string.
Variable RegExp_test : string -> string -> bool.
Variable FormValidation_email : Js.val -> bool.
Variable validateInputAgainstRegEx : string -> string -> bool.
Variable INLINE_PASSWORD : string.

Local Abbreviation validateDomain := (validateDomain t RegExp_test).
Local Abbreviation passesLocalRules := (passesLocalRules RegExp_test).
Local Abbreviation validateUsernameAgainstUserstoreRegExp :=
  (validateUsernameAgainstUserstoreRegExp t FormValidation_email
     validateInputAgainstRegEx).
Local Abbreviation handleValidate := (handleValidate t FormValidation_email).
Local Abbreviation accepted := (accepted t FormValidation_email).
Local Abbreviation handleSubmit := (handleSubmit INLINE_PASSWORD).

(** The promise of [validateDomain] for a non-empty value: resolved to
    a local message, or waiting for the availability check. *)
Lemma validateDomain_shape (config : Config) (value : string) :
  value <> "" ->
  if passesLocalRules config value
  then validateDomain config value
       = Await (getTenantDomainAvailability value) (fun settled =>
           if negb match settled with
                   | Fulfilled available => available
                   | Rejected => false
                   end
           then Resolve (Some (t "tenants:common.form.fields.domain.validations.domainUnavailable"))
           else Resolve None)
  else exists key,
         validateDomain config value = Resolve (Some (t key))
         /\ In key
              [ "tenants:common.form.fields.domain.validations.domainMandatoryExtension";
                "tenants:common.form.fields.domain.validations.domainInvalidPattern";
                "tenants:common.form.fields.domain.validations.domainStartingWithDot";
                "tenants:common.form.fields.domain.validations.domainInvalidCharPattern" ].
Proof.
  clear FormValidation_email validateInputAgainstRegEx INLINE_PASSWORD.
  intros Hne.
  unfold AddTenantForm.passesLocalRules, AddTenantForm.validateDomain.
  destruct (Js.truthy (Js.Str value)) eqn:Htr;
    [|apply truthy_Str in Htr; contradiction].
  cbn [negb].
  destruct (enabled (isTenantDomainDotExtensionMandatory config)
            && (Js.lastIndexOf value "." <=? 0)); cbn [negb andb].
  { eexists. split; [reflexivity|]. simpl. tauto. }
  destruct (match configured (tenantDomainRegex config) with
            | Some pattern => negb (RegExp_test pattern value)
            | None => false
            end); cbn [negb andb].
  { eexists. split; [reflexivity|]. simpl. tauto. }
  destruct (Js.indexOf value "." =? 0); cbn [negb andb].
  { eexists. split; [reflexivity|]. simpl. tauto. }
  destruct (match configured (tenantDomainIllegalCharactersRegex config) with
            | Some pattern => RegExp_test pattern value
            | None => false
            end); cbn [negb andb].
  { eexists. split; [reflexivity|]. simpl. tauto. }
  reflexivity.
Qed.

(** X1: the validator of the tenant domain asks the backend at most
    once, for the value it was given, and only for a non-empty value
    that passes the four local rules. *)
Theorem validateDomain_calls (config : Config) (value : string)
    (backend : forall R, Call R -> Settled R) :
  snd (settle backend (validateDomain config value))
  = if negb (String.eqb value "") && passesLocalRules config value
    then [Invoked (getTenantDomainAvailability value)]
    else [].
Proof.
  destruct (String.eqb value "") eqn:Hempty; cbn [negb andb].
  - apply String.eqb_eq in Hempty. subst value. reflexivity.
  - apply String.eqb_neq in Hempty.
    pose proof (validateDomain_shape config value Hempty) as Hshape.
    destruct (passesLocalRules config value).
    + rewrite Hshape. cbn [settle].
      destruct (backend bool (getTenantDomainAvailability value)) as [[|]|];
        reflexivity.
    + destruct Hshape as (key & -> & _). reflexivity.
Qed.

(** X2: for a value that passes the local rules the answer is that of
    the backend, failing closed: no message only when the check is
    fulfilled with [true]; a negative answer and a rejected check both
    give the unavailable-domain message. *)
Theorem validateDomain_fails_closed (config : Config) (value : string)
    (backend : forall R, Call R -> Settled R) :
  value <> "" ->
  passesLocalRules config value = true ->
  fst (settle backend (validateDomain config value))
  = Fulfilled
      (match backend _ (getTenantDomainAvailability value) with
       | Fulfilled true => None
       | _ => Some (t "tenants:common.form.fields.domain.validations.domainUnavailable")
       end).
Proof.
  intros Hne Hpass.
  pose proof (validateDomain_shape config value Hne) as Hshape.
  rewrite Hpass in Hshape. rewrite Hshape. cbn [settle].
  destruct (backend bool (getTenantDomainAvailability value)) as [[|]|];
    reflexivity.
Qed.

(** X3: a non-empty value that one of the local rules refuses gets its
    message at once: the promise has resolved with one of the four
    local messages, never with the unavailable-domain one. *)
Theorem validateDomain_local_failure (config : Config) (value : string) :
  value <> "" ->
  passesLocalRules config value = false ->
  exists key,
    validateDomain config value = Resolve (Some (t key))
    /\ In key
         [ "tenants:common.form.fields.domain.validations.domainMandatoryExtension";
           "tenants:common.form.fields.domain.validations.domainInvalidPattern";
           "tenants:common.form.fields.domain.validations.domainStartingWithDot";
           "tenants:common.form.fields.domain.validations.domainInvalidCharPattern" ].
Proof.
  intros Hne Hfail.
  pose proof (validateDomain_shape config value Hne) as Hshape.
  rewrite Hfail in Hshape. exact Hshape.
Qed.

(** X4: a non-empty username costs one request, for the pattern of the
    user store; it is accepted exactly when it matches that pattern
    and is an email address as well, and when the request for the
    pattern rejects the validator rejects too, with no message. *)
Theorem validateUsername_settled (value : string)
    (backend : forall R, Call R -> Settled R) :
  value <> "" ->
  settle backend (validateUsernameAgainstUserstoreRegExp value)
  = (match backend _ getUsertoreUsernameValidationPattern with
     | Fulfilled userRegex =>
         Fulfilled
           (if validateInputAgainstRegEx value userRegex
               && FormValidation_email (Js.Str value)
            then None
            else Some (t "tenants:common.form.fields.username.validations.regExViolation"))
     | Rejected => Rejected
     end,
     [Invoked getUsertoreUsernameValidationPattern]).
Proof.
  intros Hne. unfold AddTenantForm.validateUsernameAgainstUserstoreRegExp.
  destruct (Js.truthy (Js.Str value)) eqn:Htr;
    [|apply truthy_Str in Htr; contradiction].
  cbn [negb AddTenantForm.await settle].
  destruct (backend string getUsertoreUsernameValidationPattern)
    as [userRegex|]; [|reflexivity].
  destruct (validateInputAgainstRegEx value userRegex);
    destruct (FormValidation_email (Js.Str value)); reflexivity.
Qed.


(** X6: at submit time the form accepts the values exactly when the
    domain, the first and last name, the email, the password and the
    username are all filled in and the email is an email address; the
    organization name plays no part. *)
Theorem accepted_iff (values : list (string * Js.val)) :
  accepted values
  = Js.truthy (Js.get "domain" (Js.Obj values))
    && Js.truthy (Js.get "firstname" (Js.Obj values))
    && Js.truthy (Js.get "lastname" (Js.Obj values))
    && (Js.truthy (Js.get "email" (Js.Obj values))
        && FormValidation_email (Js.get "email" (Js.Obj values)))
    && Js.truthy (Js.get "password" (Js.Obj values))
    && Js.truthy (Js.get "username" (Js.Obj values)).
Proof.
  unfold AddTenantForm.accepted, AddTenantForm.handleValidate, required.
  destruct (Js.truthy (Js.get "domain" (Js.Obj values)));
    destruct (Js.truthy (Js.get "firstname" (Js.Obj values)));
    destruct (Js.truthy (Js.get "lastname" (Js.Obj values)));
    destruct (Js.truthy (Js.get "email" (Js.Obj values)));
    destruct (FormValidation_email (Js.get "email" (Js.Obj values)));
    destruct (Js.truthy (Js.get "password" (Js.Obj values)));
    destruct (Js.truthy (Js.get "username" (Js.Obj values)));
    reflexivity.
Qed.

(** X7: a provisioning method among the form values never reaches the
    payload: the owner is given [INLINE_PASSWORD] whatever the form
    holds under that key. *)
Theorem handleSubmit_provisioningMethod
    (values : list (string * Js.val)) (method : Js.val) :
  handleSubmit (Js.set "provisioningMethod" method values)
  = handleSubmit values.
Proof.
  unfold AddTenantForm.handleSubmit.
  rewrite !lookup_set_ne by discriminate.
  rewrite !remove_set_ne by discriminate.
  rewrite set_set. reflexivity.
Qed.

End AddTenantFormMore.

(* ===================================================================== *)
(** * More on the organization loader *)
(* ===================================================================== *)

Section LoaderMore.
Import Async.
Import AddOrganizationDiscoveryDomains.

Variable t : string -> string.

Local Abbreviation handleLoaderEvent := (handleLoaderEvent t).
Local Abbreviation runLoader := (runLoader t).

(** The state the response effect leaves when a page has arrived. *)
Lemma organizationListResponseEffect_withPage
    (response : OrganizationListResponse) (s : State) :
  organizationListResponseEffect (Some response) false false s
  = Done tt (withPage response s).
Proof.
  unfold organizationListResponseEffect.
  cbn [orb]. unfold mbind, M_bind. cbn [setParams_with modify bind_res].
  cbn [setOrganizations_with modify bind_res].
  rewrite scanLinks_spec. cbn [bind_res orb]. unfold withPage.
  destruct (lastNextCursor (default [] (response_links response)));
    reflexivity.
Qed.

(** Every event is handled at once: no handler of the loader waits or
    throws. *)
Lemma handleLoaderEvent_done (event : LoaderEvent) (s : State) :
  handleLoaderEvent event s = Done tt (reached (handleLoaderEvent event s)).
Proof.
  destruct event as [response isLoading isValidating|error|data|value|];
    cbn [AddOrganizationDiscoveryDomains.handleLoaderEvent].
  - destruct response as [response|]; [|reflexivity].
    destruct isLoading, isValidating; try reflexivity.
    rewrite organizationListResponseEffect_withPage. reflexivity.
  - unfold organizationsFetchRequestErrorEffect.
    destruct (Js.truthy error); cbn [negb]; [|reflexivity].
    destruct (Js.truthy _); reflexivity.
  - reflexivity.
  - unfold handleOnChange. destruct (Js.truthy value); reflexivity.
  - unfold loadMoreOrganizations, mbind, M_bind. cbn [read bind_res].
    destruct (hasMoreOrganizations s); reflexivity.
Qed.

(** One event and the accumulated organizations. *)
Lemma loader_step_organizations (event : LoaderEvent) (s : State) :
  organizations (reached (handleLoaderEvent event s))
  = accumulated [event] (organizations s).
Proof.
  destruct event as [response isLoading isValidating|error|data|value|];
    cbn [AddOrganizationDiscoveryDomains.handleLoaderEvent accumulated].
  - destruct response as [response|]; [|reflexivity].
    destruct isLoading, isValidating; try reflexivity.
    rewrite organizationListResponseEffect_withPage. reflexivity.
  - unfold organizationsFetchRequestErrorEffect.
    destruct (Js.truthy error); cbn [negb]; [|reflexivity].
    destruct (Js.truthy _); reflexivity.
  - reflexivity.
  - unfold handleOnChange. destruct (Js.truthy value); reflexivity.
  - unfold loadMoreOrganizations, mbind, M_bind. cbn [read bind_res].
    destruct (hasMoreOrganizations s); reflexivity.
Qed.

Lemma accumulated_cons (event : LoaderEvent) (events : list LoaderEvent)
    (acc : list Organization) :
  accumulated (event :: events) acc
  = accumulated events (accumulated [event] acc).
Proof.
  destruct event as [[response|] [|] [|]|error|data|value|]; reflexivity.
Qed.

(** X8: whatever happens to the loader, the accumulated organizations
    are the pages that have arrived since the text of the input last
    changed (or the selection was last cleared), one after the other
    in the order of their arrival; nothing is dropped, reordered or
    merged, and errors and scrolling leave them alone. *)
Theorem runLoader_organizations (events : list LoaderEvent) (s : State) :
  organizations (runLoader events s) = accumulated events (organizations s).
Proof.
  revert s. induction events as [|event rest IH]; intros s.
  - reflexivity.
  - cbn [AddOrganizationDiscoveryDomains.runLoader].
    rewrite IH, loader_step_organizations, <- accumulated_cons.
    reflexivity.
Qed.

(** Runs the setters of a handler that does not wait. *)
Ltac run_setters :=
  unfold handleInputChange, handleOnChange, loadMoreOrganizations,
    updateParams, setOrganizations, setAfterCursor, setInputValue,
    setHasMoreOrganizations, setOrganizations_with, setAfterCursor_with,
    setInputValue_with, setHasMoreOrganizations_with, setParams_with,
    modify, read, mbind, M_bind, mret, M_ret;
  cbn [bind_res reached params limit after filter shouldFetch inputValue
       hasMoreOrganizations afterCursor organizations emailDomains arrays
       alerts history isEmailDomainDataError isEmailDomainAvailableError].

(** One event and the request parameters. *)
Lemma loader_step_params (event : LoaderEvent) (s : State) :
  let s' := reached (handleLoaderEvent event s) in
  (limit (params s) = 15 -> limit (params s') = 15)
  /\ (hasMoreOrganizations s || negb (Js.truthy (afterCursor s)) = true ->
      hasMoreOrganizations s' || negb (Js.truthy (afterCursor s')) = true)
  /\ (after (params s) = Js.Null \/ Js.truthy (after (params s)) = true ->
      after (params s') = Js.Null \/ Js.truthy (after (params s')) = true)
  /\ (filter (params s) = Js.Undefined
      \/ filter (params s) = filterFor (inputValue s) ->
      filter (params s') = Js.Undefined
      \/ filter (params s') = filterFor (inputValue s')).
Proof.
  assert (forall cursor : Js.val,
            Js.or cursor Js.Null = Js.Null
            \/ Js.truthy (Js.or cursor Js.Null) = true) as Hor.
  { intros cursor. unfold Js.or.
    destruct (Js.truthy cursor) eqn:E; [right; exact E | left; reflexivity]. }
  destruct event as [response isLoading isValidating|error|data|value|];
    cbn [AddOrganizationDiscoveryDomains.handleLoaderEvent].
  - destruct response as [response|]; [|cbn; tauto].
    destruct isLoading, isValidating; try (cbn; tauto).
    rewrite organizationListResponseEffect_withPage.
    cbn [reached]. unfold withPage.
    cbn [params limit after filter inputValue hasMoreOrganizations afterCursor].
    repeat split; try tauto.
    intros _.
    destruct (lastNextCursor (default [] (response_links response)))
      as [cursor|]; cbn; [|reflexivity].
    destruct (Js.truthy cursor); reflexivity.
  - unfold organizationsFetchRequestErrorEffect.
    destruct (Js.truthy error); cbn [negb]; [|cbn; tauto].
    destruct (Js.truthy _); cbn; tauto.
  - run_setters.
    repeat split; try tauto; intros _;
      first [apply orb_true_r | left; reflexivity | right; reflexivity].
  - run_setters. destruct (Js.truthy value); cbn [negb];
      [cbn; tauto|].
    run_setters.
    repeat split; try tauto; intros _;
      first [apply orb_true_r | left; reflexivity | right; reflexivity].
  - run_setters.
    destruct (hasMoreOrganizations s) eqn:Hmore; cbn [negb];
      [|cbn; rewrite ?Hmore; cbn; tauto].
    run_setters.
    repeat split; try tauto; intros _;
      first [apply Hor | rewrite Hmore; reflexivity | right; reflexivity].
Qed.

(** X9: in every state the loader reaches from the first render, the
    page size is 15; the after-cursor is empty whenever the list is
    marked as exhausted; the request carries a cursor that is either
    [null] or a non-empty value, never an empty string; and the filter
    of the request, once set, is the one made from the text of the
    input. *)
Theorem runLoader_invariant (events : list LoaderEvent) :
  let s := runLoader events initialState in
  limit (params s) = 15
  /\ hasMoreOrganizations s || negb (Js.truthy (afterCursor s)) = true
  /\ (after (params s) = Js.Null \/ Js.truthy (after (params s)) = true)
  /\ (filter (params s) = Js.Undefined
      \/ filter (params s) = filterFor (inputValue s)).
Proof.
  assert (forall events s,
            limit (params s) = 15
            /\ hasMoreOrganizations s || negb (Js.truthy (afterCursor s)) = true
            /\ (after (params s) = Js.Null \/ Js.truthy (after (params s)) = true)
            /\ (filter (params s) = Js.Undefined
                \/ filter (params s) = filterFor (inputValue s)) ->
            let s' := runLoader events s in
            limit (params s') = 15
            /\ hasMoreOrganizations s' || negb (Js.truthy (afterCursor s')) = true
            /\ (after (params s') = Js.Null
                \/ Js.truthy (after (params s')) = true)
            /\ (filter (params s') = Js.Undefined
                \/ filter (params s') = filterFor (inputValue s'))) as Hgen.
  { clear events. induction events as [|event rest IH]; intros s Hs.
    - exact Hs.
    - cbn [AddOrganizationDiscoveryDomains.runLoader]. apply IH.
      destruct Hs as (H1 & H2 & H3 & H4).
      destruct (loader_step_params event s) as (K1 & K2 & K3 & K4).
      repeat split; auto. }
  apply Hgen. cbn. repeat split; auto.
Qed.

(** One event and what lies outside the loader. *)
Lemma loader_step_frame (event : LoaderEvent) (s : State) :
  let s' := reached (handleLoaderEvent event s) in
  emailDomains s' = emailDomains s
  /\ arrays s' = arrays s
  /\ isEmailDomainDataError s' = isEmailDomainDataError s
  /\ isEmailDomainAvailableError s' = isEmailDomainAvailableError s
  /\ history s' = history s
  /\ exists more,
       alerts s' = alerts s ++ more
       /\ length more = errorsSeen [event]
       /\ Forall (fun alert => level alert = ERROR) more.
Proof.
  assert (forall s0 : State,
            exists more, alerts s0 = alerts s0 ++ more
                         /\ length more = 0%nat
                         /\ Forall (fun alert => level alert = ERROR) more)
    as Hnone.
  { intros s0. exists []. rewrite app_nil_r. repeat split. constructor. }
  destruct event as [response isLoading isValidating|error|data|value|];
    cbn [AddOrganizationDiscoveryDomains.handleLoaderEvent].
  - destruct response as [response|]; [|cbn; repeat split; apply Hnone].
    destruct isLoading, isValidating;
      try (cbn; repeat split; apply Hnone).
    rewrite organizationListResponseEffect_withPage.
    cbn. repeat split. apply Hnone.
  - unfold organizationsFetchRequestErrorEffect, errorsSeen.
    cbn [List.filter].
    destruct (Js.truthy error); cbn [negb];
      [|cbn; repeat split; apply Hnone].
    destruct (Js.truthy _); cbn; repeat split;
      (eexists [_]; repeat split; repeat constructor).
  - run_setters. repeat split. apply Hnone.
  - run_setters. destruct (Js.truthy value); cbn [negb]; run_setters;
      repeat split; apply Hnone.
  - run_setters. destruct (hasMoreOrganizations s); cbn [negb]; run_setters;
      repeat split; apply Hnone.
Qed.

Lemma errorsSeen_cons (event : LoaderEvent) (events : list LoaderEvent) :
  errorsSeen (event :: events) = (errorsSeen [event] + errorsSeen events)%nat.
Proof.
  unfold errorsSeen. cbn [List.filter].
  destruct (match event with
            | ErrorChanged error => Js.truthy error
            | _ => false
            end); reflexivity.
Qed.

(** X10: nothing that happens to the loader touches the email
    domains, their arrays, the error flags of the email field or the
    history; of the alerts it only adds, one alert of level [ERROR]
    for each error of the list request. *)
Theorem runLoader_frame (events : list LoaderEvent) (s : State) :
  let s' := runLoader events s in
  emailDomains s' = emailDomains s
  /\ arrays s' = arrays s
  /\ isEmailDomainDataError s' = isEmailDomainDataError s
  /\ isEmailDomainAvailableError s' = isEmailDomainAvailableError s
  /\ history s' = history s
  /\ exists more,
       alerts s' = alerts s ++ more
       /\ length more = errorsSeen events
       /\ Forall (fun alert => level alert = ERROR) more.
Proof.
  revert s. induction events as [|event rest IH]; intros s.
  - cbn. repeat split. exists []. rewrite app_nil_r. repeat split. constructor.
  - cbn [AddOrganizationDiscoveryDomains.runLoader].
    destruct (loader_step_frame event s)
      as (H1 & H2 & H3 & H4 & H5 & more1 & Ha1 & Hl1 & Hf1).
    destruct (IH (reached (handleLoaderEvent event s)))
      as (K1 & K2 & K3 & K4 & K5 & more2 & Ha2 & Hl2 & Hf2).
    cbn zeta. rewrite K1, K2, K3, K4, K5, H1, H2, H3, H4, H5.
    repeat split.
    exists (more1 ++ more2). rewrite Ha2, Ha1, app_assoc.
    repeat split.
    + rewrite length_app, errorsSeen_cons. lia.
    + apply Forall_app. split; assumption.
Qed.

(** X11: when a page brings a [next] link with a cursor, scrolling to
    the end asks for the page after that cursor, under the filter of
    the current text and with the same page size, and keeps what has
    been accumulated, the new page included. *)
Theorem loadMore_after_page
    (response : OrganizationListResponse) (cursor : Js.val) (s : State) :
  lastNextCursor (default [] (response_links response)) = Some cursor ->
  Js.truthy cursor = true ->
  let s' := runLoader [ResponseChanged (Some response) false false;
                       ScrolledToEnd] s in
  fetchRequest s'
  = Some (filterFor (inputValue s), limit (params s), cursor)
  /\ organizations s'
     = organizations s ++ default [] (response_organizations response).
Proof.
  intros Hcursor Htruthy.
  cbn [AddOrganizationDiscoveryDomains.runLoader
       AddOrganizationDiscoveryDomains.handleLoaderEvent].
  rewrite organizationListResponseEffect_withPage. cbn [reached].
  unfold loadMoreOrganizations, mbind, M_bind. cbn [read bind_res].
  unfold withPage at 1. cbn [hasMoreOrganizations].
  rewrite Hcursor, Htruthy. cbn [negb].
  run_setters. unfold withPage, fetchRequest.
  cbn [params shouldFetch filter limit after afterCursor inputValue
       organizations].
  rewrite Hcursor. cbn [from_option Datatypes.id].
  unfold Js.or. rewrite Htruthy. split; reflexivity.
Qed.

(** X12: when a page brings no [next] link, or one without a cursor,
    scrolling to the end does nothing: no request is issued until the
    text of the input changes. *)
Theorem loadMore_exhausted
    (response : OrganizationListResponse) (s : State) :
  match lastNextCursor (default [] (response_links response)) with
  | Some cursor => Js.truthy cursor = false
  | None => True
  end ->
  let s1 := runLoader [ResponseChanged (Some response) false false] s in
  runLoader [ScrolledToEnd] s1 = s1
  /\ fetchRequest s1 = None
  /\ hasMoreOrganizations s1 = false.
Proof.
  intros Hcursor.
  cbn [AddOrganizationDiscoveryDomains.runLoader
       AddOrganizationDiscoveryDomains.handleLoaderEvent].
  rewrite organizationListResponseEffect_withPage. cbn [reached].
  assert (hasMoreOrganizations (withPage response s) = false) as Hmore.
  { unfold withPage. cbn [hasMoreOrganizations].
    destruct (lastNextCursor (default [] (response_links response)));
      [exact Hcursor | reflexivity]. }
  unfold loadMoreOrganizations, mbind, M_bind. cbn [read bind_res].
  rewrite Hmore. repeat split.
Qed.

End LoaderMore.

(* ===================================================================== *)
(** * More on the email domains *)
(* ===================================================================== *)

Section EmailDomainsMore.
Import Async.
Import AddOrganizationDiscoveryDomains.

Variable t : string -> string.
Variable FormValidation_domain : Js.val -> bool.

Local Abbreviation validateEmailDomain :=
  (validateEmailDomain t FormValidation_domain).
Local Abbreviation onChange := (onChange t FormValidation_domain).
Local Abbreviation addEntry := (addEntry t FormValidation_domain).

(** The check of the last entry of an array, waiting or not: where it
    stops first, and what it does once the call has settled, in the
    state [now] the component is in by then. *)
Lemma validateEmailDomain_steps (backend : forall R, Call R -> Settled R)
    (ref : nat) (old : list string) (entry : string) (s : State) :
  arrays s !! ref = Some (old ++ [entry]) ->
  if FormValidation_domain (Js.Str entry)
  then
    reached (validateEmailDomain ref s) = s
    /\ (forall now,
          settle backend (validateEmailDomain ref s)
          = (reached (resume backend (validateEmailDomain ref s) s),
             Some tt,
             [Invoked (checkEmailDomainAvailable (Js.Str entry))])
          /\ resume backend (validateEmailDomain ref s) now
             = Done tt (reached (resume backend (validateEmailDomain ref s) now))
          /\ let s' := reached (resume backend (validateEmailDomain ref s) now) in
             emailDomains s' = emailDomains now
             /\ isEmailDomainDataError s' = isEmailDomainDataError now
             /\ history s' = history now
             /\ match backend _ (checkEmailDomainAvailable (Js.Str entry)) with
                | Fulfilled response =>
                    alerts s' = alerts now
                    /\ if Js.truthy (Js.get "available" response)
                       then arrays s' = arrays now
                            /\ isEmailDomainAvailableError s'
                               = isEmailDomainAvailableError now
                       else arrays s'
                            = match arrays now !! ref with
                              | Some arr => <[ref := Js.pop arr]> (arrays now)
                              | None => arrays now
                              end
                            /\ isEmailDomainAvailableError s' = true
                | Rejected =>
                    arrays s' = arrays now
                    /\ isEmailDomainAvailableError s'
                       = isEmailDomainAvailableError now
                    /\ alerts s'
                       = alerts now
                         ++ [ {| description :=
                                   Js.Str (t "organizationDiscovery:notifications.checkEmailDomain.error.description");
                                 level := ERROR;
                                 message :=
                                   Js.Str (t "organizationDiscovery:notifications.checkEmailDomain.error.message") |} ]
                end)
  else
    settle backend (validateEmailDomain ref s)
    = (reached (validateEmailDomain ref s), Some tt, [])
    /\ let s' := reached (validateEmailDomain ref s) in
       emailDomains s' = emailDomains s
       /\ arrays s' = <[ref := old]> (arrays s)
       /\ isEmailDomainDataError s' = true
       /\ isEmailDomainAvailableError s' = isEmailDomainAvailableError s
       /\ alerts s' = alerts s
       /\ history s' = history s.
Proof.
  intros Href.
  unfold AddOrganizationDiscoveryDomains.validateEmailDomain, mbind, M_bind.
  cbn [read bind_res].
  unfold array. rewrite Href. cbn [from_option Datatypes.id].
  rewrite lastElement_snoc.
  destruct (FormValidation_domain (Js.Str entry)) eqn:Hvalid; cbn [negb].
  - unfold checkEmailDomainAvailability, mbind, M_bind.
    cbn [await bind_res settle reached resume].
    split; [reflexivity|]. intros now.
    destruct (backend Js.val (checkEmailDomainAvailable (Js.Str entry)))
      as [response|] eqn:Hcall.
    + cbn [mret M_ret bind_res].
      destruct (Js.truthy (Js.get "available" response)) eqn:Havail;
        cbn [negb].
      * cbn. repeat split.
      * destruct s, now; cbn. repeat split.
    + destruct s, now; cbn. repeat split.
  - destruct s; cbn in *. rewrite Href, pop_snoc. repeat split.
Qed.

(** [onChange] stores the reference and checks the last entry of a
    non-empty array. *)
Lemma onChange_unfold (value : nat) (arr : list string) (s : State) :
  arrays s !! value = Some arr ->
  let s1 :=
    {| emailDomains := value;
       isEmailDomainDataError := isEmailDomainDataError s;
       isEmailDomainAvailableError := isEmailDomainAvailableError s;
       organizations := organizations s;
       hasMoreOrganizations := hasMoreOrganizations s;
       inputValue := inputValue s;
       afterCursor := afterCursor s;
       params := params s;
       arrays := arrays s;
       alerts := alerts s;
       history := history s |} in
  onChange value s
  = if (0 <? length arr)%nat then validateEmailDomain value s1 else Done tt s1.
Proof.
  intros Hvalue s1. subst s1.
  unfold AddOrganizationDiscoveryDomains.onChange, mbind, M_bind.
  destruct s as [e f1 f2 os hm iv ac ps heap al hs].
  cbn [read bind_res modify setEmailDomains setEmailDomains_with arrays
       emailDomains isEmailDomainDataError isEmailDomainAvailableError
       organizations hasMoreOrganizations inputValue afterCursor params
       alerts history] in *.
  unfold array at 1. cbn [arrays]. rewrite Hvalue.
  cbn [from_option Datatypes.id].
  destruct (0 <? length arr)%nat; reflexivity.
Qed.

(** X13: every change of the value of the email field, an entry added
    or an entry removed, checks the entry that is last in the new
    value and no other: the backend is asked about that entry only,
    and only if it has the format of a domain; the entry is popped
    unless it has the format and the remote check answers that it is
    available or rejects; the entries before it stay.  An empty value
    is stored without any check. *)
Theorem onChange_settled (backend : forall R, Call R -> Settled R)
    (value : nat) (arr : list string) (s : State) :
  arrays s !! value = Some arr ->
  let outcome := settle backend (onChange value s) in
  emailDomains outcome.1.1 = value
  /\ emailDomainList outcome.1.1
     = match last arr with
       | Some entry =>
           if FormValidation_domain (Js.Str entry)
              && match backend _ (checkEmailDomainAvailable (Js.Str entry)) with
                 | Fulfilled response => Js.truthy (Js.get "available" response)
                 | Rejected => true
                 end
           then arr
           else removelast arr
       | None => []
       end
  /\ outcome.2
     = match last arr with
       | Some entry =>
           if FormValidation_domain (Js.Str entry)
           then [Invoked (checkEmailDomainAvailable (Js.Str entry))]
           else []
       | None => []
       end.
Proof.
  intros Hvalue. cbn zeta. rewrite (onChange_unfold value arr s Hvalue).
  destruct arr as [|entry old _] using rev_ind.
  - cbn. unfold emailDomainList, array. cbn. rewrite Hvalue.
    repeat split.
  - rewrite length_app, Nat.add_1_r. cbn [Nat.ltb Nat.leb].
    rewrite last_snoc, removelast_last.
    match goal with
    | |- context [validateEmailDomain value ?s1] =>
        pose proof (validateEmailDomain_steps backend value old entry s1 Hvalue)
          as Hsteps; set (s1' := s1) in *
    end.
    destruct (FormValidation_domain (Js.Str entry)) eqn:Hvalid; cbn [andb].
    + destruct Hsteps as [_ Hsteps].
      destruct (Hsteps s1') as (Hsettle & _ & He & _ & _ & Hcall).
      rewrite Hsettle. cbn [fst snd].
      unfold emailDomainList, array. rewrite He.
      split; [reflexivity|]. split; [|reflexivity].
      destruct (backend Js.val (checkEmailDomainAvailable (Js.Str entry)))
        as [response|].
      * destruct Hcall as [_ Hcall].
        destruct (Js.truthy (Js.get "available" response)).
        -- destruct Hcall as [-> _]. cbn. rewrite Hvalue. reflexivity.
        -- destruct Hcall as [-> _]. cbn. rewrite Hvalue.
           rewrite lookup_insert_eq, pop_snoc. reflexivity.
      * destruct Hcall as (-> & _). cbn. rewrite Hvalue. reflexivity.
    + destruct Hsteps as (Hsettle & He & Harr & _).
      rewrite Hsettle. cbn [fst snd].
      unfold emailDomainList, array. rewrite He, Harr.
      cbn. rewrite lookup_insert_eq. repeat split.
Qed.

(** The state in which the check of a new entry starts. *)
Lemma addEntry_start (entry : string) (s : State) :
  exists s1,
    addEntry entry s = validateEmailDomain (fresh (dom (arrays s))) s1
    /\ arrays s1
       = <[fresh (dom (arrays s)) := emailDomainList s ++ [entry]]> (arrays s)
    /\ emailDomains s1 = fresh (dom (arrays s))
    /\ isEmailDomainDataError s1 = isEmailDomainDataError s
    /\ isEmailDomainAvailableError s1 = isEmailDomainAvailableError s
    /\ alerts s1 = alerts s
    /\ history s1 = history s.
Proof.
  eexists. split; [apply addEntry_unfold|]. repeat split.
Qed.

(** X14: an entry that has not the format of a domain is taken off
    again at once, without a word to the backend: the list is what it
    was, the format flag is raised, the availability flag and the
    alerts are left alone. *)
Theorem addEntry_format_refused (backend : forall R, Call R -> Settled R)
    (entry : string) (s : State) :
  FormValidation_domain (Js.Str entry) = false ->
  let outcome := settle backend (addEntry entry s) in
  emailDomainList outcome.1.1 = emailDomainList s
  /\ isEmailDomainDataError outcome.1.1 = true
  /\ isEmailDomainAvailableError outcome.1.1 = isEmailDomainAvailableError s
  /\ alerts outcome.1.1 = alerts s
  /\ outcome.2 = [].
Proof.
  intros Hvalid. cbn zeta.
  destruct (addEntry_start entry s)
    as (s1 & -> & Harr & He & Hd & Ha & Hal & _).
  pose proof (validateEmailDomain_steps backend (fresh (dom (arrays s)))
                (emailDomainList s) entry s1) as Hsteps.
  rewrite Hvalid in Hsteps.
  destruct Hsteps as (-> & He' & Harr' & Hd' & Ha' & Hal' & _).
  { rewrite Harr. apply lookup_insert_eq. }
  cbn [fst snd]. unfold emailDomainList at 1. unfold array.
  rewrite He', Harr', He, lookup_insert_eq.
  repeat split; congruence.
Qed.

(** X15: an entry that has the format of a domain and that the backend
    answers is not available is taken off again once the answer is
    there: the list is what it was, the availability flag is raised,
    the format flag and the alerts are left alone. *)
Theorem addEntry_unavailable_refused (backend : forall R, Call R -> Settled R)
    (entry : string) (response : Js.val) (s : State) :
  FormValidation_domain (Js.Str entry) = true ->
  backend _ (checkEmailDomainAvailable (Js.Str entry)) = Fulfilled response ->
  Js.truthy (Js.get "available" response) = false ->
  let outcome := settle backend (addEntry entry s) in
  emailDomainList outcome.1.1 = emailDomainList s
  /\ isEmailDomainAvailableError outcome.1.1 = true
  /\ isEmailDomainDataError outcome.1.1 = isEmailDomainDataError s
  /\ alerts outcome.1.1 = alerts s
  /\ outcome.2 = [Invoked (checkEmailDomainAvailable (Js.Str entry))].
Proof.
  intros Hvalid Hcall Havail. cbn zeta.
  destruct (addEntry_start entry s)
    as (s1 & -> & Harr & He & Hd & Ha & Hal & _).
  pose proof (validateEmailDomain_steps backend (fresh (dom (arrays s)))
                (emailDomainList s) entry s1) as Hsteps.
  rewrite Hvalid in Hsteps.
  destruct Hsteps as [_ Hsteps].
  { rewrite Harr. apply lookup_insert_eq. }
  destruct (Hsteps s1) as (-> & _ & He' & Hd' & _ & Hrest).
  rewrite Hcall, Havail in Hrest. destruct Hrest as (Hal' & Harr' & Ha').
  cbn [fst snd]. unfold emailDomainList at 1. unfold array.
  rewrite He', Harr', He, Harr, lookup_insert_eq, lookup_insert_eq, pop_snoc.
  repeat split; congruence.
Qed.

(** X16: a second entry added while the check of the first is still
    in flight makes that check miss: the check of the first entry pops
    from the array it was started on, and the component holds a newer
    array by then.  So the first entry stays in the list whatever the
    backend answers about it, whereas, added in turn, an entry that is
    not available is taken off. *)
Theorem addTwoOverlapping_list (backend : forall R, Call R -> Settled R)
    (first second : string) (s : State) :
  FormValidation_domain (Js.Str first) = true ->
  FormValidation_domain (Js.Str second) = true ->
  let available entry :=
    match backend _ (checkEmailDomainAvailable (Js.Str entry)) with
    | Fulfilled response => Js.truthy (Js.get "available" response)
    | Rejected => true
    end in
  emailDomainList (addTwoOverlapping t FormValidation_domain backend
                     first second s)
  = (if available second
     then (emailDomainList s ++ [first]) ++ [second]
     else emailDomainList s ++ [first])
  /\ emailDomainList (addTwoInTurn t FormValidation_domain backend
                        first second s)
     = (if available second
        then (if available first
              then emailDomainList s ++ [first]
              else emailDomainList s) ++ [second]
        else if available first
             then emailDomainList s ++ [first]
             else emailDomainList s).
Proof.
  intros Hfirst Hsecond available. split.
  - unfold addTwoOverlapping.
    destruct (addEntry_start first s) as (s1 & -> & Harr1 & He1 & _).
    set (ref1 := fresh (dom (arrays s))) in *.
    assert (arrays s1 !! ref1 = Some (emailDomainList s ++ [first])) as Href1
        by (rewrite Harr1; apply lookup_insert_eq).
    pose proof (validateEmailDomain_steps backend ref1 (emailDomainList s)
                  first s1 Href1) as Hsteps1.
    rewrite Hfirst in Hsteps1. destruct Hsteps1 as [Hreached1 Hsteps1].
    rewrite Hreached1.
    assert (emailDomainList s1 = emailDomainList s ++ [first]) as Hlist1.
    { unfold emailDomainList at 1. unfold array. rewrite He1, Href1.
      reflexivity. }
    destruct (addEntry_start second s1) as (s2 & -> & Harr2 & He2 & _).
    set (ref2 := fresh (dom (arrays s1))) in *.
    rewrite Hlist1 in Harr2.
    assert (ref2 <> ref1) as Hne.
    { intros Heq. apply (is_fresh (dom (arrays s1))). fold ref2.
      rewrite Heq. apply (elem_of_dom_2 _ _ _ Href1). }
    assert (arrays s2 !! ref2
            = Some ((emailDomainList s ++ [first]) ++ [second])) as Href2
        by (rewrite Harr2; apply lookup_insert_eq).
    pose proof (validateEmailDomain_steps backend ref2
                  (emailDomainList s ++ [first]) second s2 Href2) as Hsteps2.
    rewrite Hsecond in Hsteps2. destruct Hsteps2 as [Hreached2 Hsteps2].
    rewrite Hreached2.
    destruct (Hsteps1 s2) as (_ & Hdone1 & He3 & _ & _ & Hcall1).
    rewrite Hdone1. cbn [reached].
    set (s3 := reached (resume backend (validateEmailDomain ref1 s1) s2)) in *.
    assert (arrays s3 !! ref2
            = Some ((emailDomainList s ++ [first]) ++ [second])) as Href3.
    { destruct (backend Js.val (checkEmailDomainAvailable (Js.Str first)))
        as [response|].
      - destruct Hcall1 as [_ Hcall1].
        destruct (Js.truthy (Js.get "available" response)).
        + destruct Hcall1 as [-> _]. exact Href2.
        + destruct Hcall1 as [-> _].
          destruct (arrays s2 !! ref1); [|exact Href2].
          rewrite lookup_insert_ne by congruence. exact Href2.
      - destruct Hcall1 as (-> & _). exact Href2. }
    destruct (Hsteps2 s3) as (_ & Hdone2 & He4 & _ & _ & Hcall2).
    rewrite Hdone2. cbn [reached].
    set (s4 := reached (resume backend (validateEmailDomain ref2 s2) s3)) in *.
    unfold emailDomainList at 1. unfold array. rewrite He4, He3, He2.
    subst available. cbn beta.
    destruct (backend Js.val (checkEmailDomainAvailable (Js.Str second)))
      as [response|].
    + destruct Hcall2 as [_ Hcall2].
      destruct (Js.truthy (Js.get "available" response)).
      * destruct Hcall2 as [-> _]. rewrite Href3. reflexivity.
      * destruct Hcall2 as [-> _]. rewrite Href3.
        rewrite lookup_insert_eq, pop_snoc. reflexivity.
    + destruct Hcall2 as (-> & _). rewrite Href3. reflexivity.
  - unfold addTwoInTurn. rewrite !addEntry_settled.
    rewrite Hfirst, Hsecond. cbn [andb]. subst available. cbn beta.
    reflexivity.
Qed.

(** ** More on the submission *)

(** X17: when an accumulated organization has the submitted name, the
    submission makes one request, for the first organization of that
    name and the email domains held at that time.  If it is fulfilled,
    a success alert is dispatched and the page of the organization is
    pushed to the history; if it rejects, an error alert is dispatched
    and nothing is pushed.  Either way the email domains and the
    organizations stay as they were, so the form can be submitted
    again. *)
Theorem handleSubmit_settled (backend : forall R, Call R -> Settled R)
    (values : Js.val) (organization : Organization) (s : State) :
  findByName (Js.get "organizationName" values) (organizations s)
  = Some organization ->
  let request :=
    addOrganizationEmailDomain (id organization) (emailDomainList s) in
  let outcome := settle backend (handleSubmit t values s) in
  outcome.2 = [Invoked request]
  /\ outcome.1.2 = Some tt
  /\ emailDomainList outcome.1.1 = emailDomainList s
  /\ organizations outcome.1.1 = organizations s
  /\ match backend _ request with
     | Fulfilled _ =>
         alerts outcome.1.1
         = alerts s
           ++ [ {| description :=
                     Js.Str (t "organizationDiscovery:notifications.addEmailDomains.success.description");
                   level := SUCCESS;
                   message :=
                     Js.Str (t "organizationDiscovery:notifications.addEmailDomains.success.message") |} ]
         /\ history outcome.1.1 = history s ++ [id organization]
     | Rejected =>
         alerts outcome.1.1
         = alerts s
           ++ [ {| description :=
                     Js.Str (t "organizationDiscovery:notifications.addEmailDomains.error.description");
                   level := ERROR;
                   message :=
                     Js.Str (t "organizationDiscovery:notifications.addEmailDomains.error.message") |} ]
         /\ history outcome.1.1 = history s
     end.
Proof.
  intros Hfind. cbn zeta.
  unfold handleSubmit, mbind, M_bind. cbn [read bind_res].
  rewrite Hfind. cbn [await bind_res settle].
  destruct (backend unit (addOrganizationEmailDomain (id organization)
                          (emailDomainList s))) as [[]|];
    destruct s; cbn; repeat split.
Qed.

(** X18: the organizations offered are those accumulated whose
    identifier is not among the organizations already configured, and
    all of them when the configured ones are not known (yet). *)
Theorem filteredDiscoverableOrganizations_In
    (discoverableOrganizations : option (option (list OrganizationDiscovery)))
    (orgs : list Organization) (organization : Organization) :
  In organization
     (filteredDiscoverableOrganizations discoverableOrganizations orgs)
  <-> In organization orgs
      /\ match discoverableOrganizations with
         | Some (Some configured) =>
             Forall (fun discoverable =>
                       organizationId discoverable <> id organization)
                    configured
         | _ => True
         end.
Proof.
  unfold filteredDiscoverableOrganizations. rewrite List.filter_In.
  apply and_iff_compat_l.
  destruct discoverableOrganizations as [[configured|]|];
    [|cbn; tauto|cbn; tauto].
  rewrite negb_true_iff, <- not_true_iff_false, List.existsb_exists.
  rewrite List.Forall_forall. split.
  - intros Hno discoverable Hin Heq. apply Hno.
    exists discoverable. split; [exact Hin|]. apply String.eqb_eq. exact Heq.
  - intros Hall (discoverable & Hin & Heq). apply String.eqb_eq in Heq.
    exact (Hall discoverable Hin Heq).
Qed.

(** X19: the submit handler looks the name up among all accumulated
    organizations, not among those offered.  When an organization that
    is already configured comes first under a name that an offered
    organization bears too, choosing the offered one submits the email
    domains for the configured one. *)
Theorem handleSubmit_resolves_hidden
    (configured : list OrganizationDiscovery)
    (hidden offered : Organization) (rest : list Organization) (s : State) :
  organizations s = hidden :: rest ->
  In offered rest ->
  name hidden = name offered ->
  Exists (fun discoverable => organizationId discoverable = id hidden)
    configured ->
  Forall (fun discoverable => organizationId discoverable <> id offered)
    configured ->
  In (name offered) (organizationNameOptions (Some (Some configured)) s)
  /\ ~ In hidden
        (filteredDiscoverableOrganizations (Some (Some configured))
           (organizations s))
  /\ exists k,
       handleSubmit t (Js.Obj [("organizationName", Js.Str (name offered))]) s
       = Susp (addOrganizationEmailDomain (id hidden) (emailDomainList s)) s k.
Proof.
  intros Horgs Hin Hname Hhidden Hoffered.
  assert (forall o,
            In o (filteredDiscoverableOrganizations (Some (Some configured))
                    (organizations s))
            <-> In o (organizations s)
                /\ Forall (fun discoverable => organizationId discoverable <> id o)
                     configured) as Hfilter.
  { intros o. unfold filteredDiscoverableOrganizations.
    rewrite List.filter_In. apply and_iff_compat_l.
    rewrite negb_true_iff, <- not_true_iff_false, List.existsb_exists.
    rewrite List.Forall_forall. split.
    - intros Hno discoverable Hd Heq. apply Hno.
      exists discoverable. split; [exact Hd|]. apply String.eqb_eq. exact Heq.
    - intros Hall (discoverable & Hd & Heq). apply String.eqb_eq in Heq.
      exact (Hall discoverable Hd Heq). }
  split; [|split].
  - unfold organizationNameOptions. apply List.in_map. apply Hfilter.
    split; [rewrite Horgs; right; exact Hin | exact Hoffered].
  - intros Hshown. apply Hfilter in Hshown. destruct Hshown as [_ Hall].
    apply List.Exists_exists in Hhidden.
    destruct Hhidden as (discoverable & Hd & Heq).
    rewrite List.Forall_forall in Hall. exact (Hall discoverable Hd Heq).
  - unfold handleSubmit, mbind, M_bind. cbn [read bind_res].
    rewrite Horgs. unfold findByName. cbn [List.find Js.get Js.lookup].
    rewrite String.eqb_refl. cbn [from_option Datatypes.id].
    cbn [Js.strictEqualsString]. rewrite Hname, String.eqb_refl.
    eexists. reflexivity.
Qed.

End EmailDomainsMore.

(* ===================================================================== *)
(** * The branding theme *)
(* ===================================================================== *)

Section BrandingFacts.
Import Branding.

Variable toLowerCase : string -> string.
Variable toUpperCase : string -> string.

Local Abbreviation mode := (mode toLowerCase).
Local Abbreviation brandingTheme := (brandingTheme toUpperCase).
Local Abbreviation generateTheme := (generateTheme toLowerCase toUpperCase).

Lemma nullish_get (k : string) (v : Js.val) :
  nullish v = true -> Js.get k v = Js.Undefined.
Proof. destruct v; try discriminate; reflexivity. Qed.

(** X20: [generateTheme] returns a theme, rather than throwing on the
    branding it reads, exactly in two cases: the branding has no
    preference at all; or the theme of the preference names its active
    theme by a string and the theme of that name, in upper case, is
    either missing or comes with a typography that has a font.  So a
    preference without a theme, a theme without an active theme, and
    an active theme that sets colours but no font all make it throw. *)
Theorem generateTheme_returns_iff (branding : Js.val) (direction : string) :
  let preference := Js.get "preference" (Js.get "themePreference" branding) in
  let theme := Js.get "theme" preference in
  is_Some (generateTheme branding direction)
  <-> nullish preference = true
      \/ exists activeTheme,
           Js.get "activeTheme" theme = Js.Str activeTheme
           /\ let selected :=
                Js.get (toUpperCase (toLowerCase activeTheme)) theme in
              nullish selected = true
              \/ (nullish (Js.get "typography" selected) = false
                  /\ nullish (Js.get "font" (Js.get "typography" selected))
                     = false).
Proof.
  intros preference theme.
  unfold Branding.generateTheme, Branding.mode, Branding.brandingTheme.
  fold preference. fold theme.
  destruct (nullish preference) eqn:Hpref.
  - assert (nullish theme = true) as ->
        by (unfold theme; rewrite (nullish_get _ _ Hpref); reflexivity).
    cbn. split; [intros _; left; reflexivity | intros _; eexists; reflexivity].
  - destruct (nullish theme) eqn:Htheme.
    + split.
      * intros [x Hx]. discriminate Hx.
      * intros [Hn | (a & Ha & _)]; [discriminate|].
        rewrite (nullish_get _ _ Htheme) in Ha. discriminate.
    + destruct (Js.get "activeTheme" theme) as [| |b|a|l|ps] eqn:Hactive;
        try (split; [intros [x Hx]; discriminate Hx
                    | intros [Hn | (a' & Ha' & _)]; discriminate]).
      unfold fontFamily.
      set (selected := Js.get (toUpperCase (toLowerCase a)) theme).
      destruct (nullish selected) eqn:Hsel.
      * split; [|intros _; eexists; reflexivity].
        intros _. right. exists a. split; [reflexivity|]. left. exact Hsel.
      * destruct (nullish (Js.get "typography" selected)) eqn:Htypo.
        -- split; [intros [x Hx]; discriminate Hx|].
           intros [Hn | (a' & [= <-] & [Hs | [Ht _]])];
             [discriminate | fold selected in Hs; congruence
             | fold selected in Ht; congruence].
        -- destruct (nullish (Js.get "font" (Js.get "typography" selected)))
             eqn:Hfont.
           ++ split; [intros [x Hx]; discriminate Hx|].
              intros [Hn | (a' & [= <-] & [Hs | [_ Hf]])];
                [discriminate | fold selected in Hs; congruence
                | fold selected in Hf; congruence].
           ++ split; [|intros _; eexists; reflexivity].
              intros _. right. exists a. split; [reflexivity|].
              right. fold selected. split; assumption.
Qed.

(** X21: when the branding selects no theme, because it has no
    preference or because its theme has no entry under the name of the
    active theme, the theme is the built-in one, the same as with no
    branding at all. *)
Theorem generateTheme_defaults
    (branding : Js.val) (direction : string) (name : string)
    (selected : Js.val) :
  mode branding = Some name ->
  brandingTheme branding name = Some selected ->
  nullish selected = true ->
  generateTheme branding direction = generateTheme Js.Undefined direction.
Proof.
  intros Hmode Htheme Hnull. unfold Branding.generateTheme.
  rewrite Hmode, Htheme.
  destruct selected; try discriminate; reflexivity.
Qed.

(** X22: a primary colour set by the selected theme is used for the
    primary colour of both colour schemes and for both stops of their
    gradients: with a branded primary colour the gradient is flat. *)
Theorem generateTheme_primary
    (branding : Js.val) (direction : string) (name : string)
    (selected : Js.val) (options : ThemeOption) :
  mode branding = Some name ->
  brandingTheme branding name = Some selected ->
  generateTheme branding direction = Some options ->
  nullish (primaryMain selected) = false ->
  Forall (fun path => at_path path options = Some (Value (primaryMain selected)))
    primaryPlaces.
Proof.
  intros Hmode Htheme Hgen Hcolour. unfold Branding.generateTheme in Hgen.
  rewrite Hmode, Htheme in Hgen.
  destruct (fontFamily selected) as [font|]; [|discriminate].
  injection Hgen as <-.
  assert (forall d, Js.coalesce (primaryMain selected) d = primaryMain selected)
    as Hco.
  { intros d. destruct (primaryMain selected); try discriminate; reflexivity. }
  unfold primaryPlaces. repeat constructor; cbn; rewrite Hco; reflexivity.
Qed.

(** X23: likewise a dark surface colour set by the selected theme is
    the background of the main wrapper and of the navigation bar in
    both colour schemes, and of the application bar. *)
Theorem generateTheme_surface
    (branding : Js.val) (direction : string) (name : string)
    (selected : Js.val) (options : ThemeOption) :
  mode branding = Some name ->
  brandingTheme branding name = Some selected ->
  generateTheme branding direction = Some options ->
  nullish (surfaceDark selected) = false ->
  Forall (fun path => at_path path options = Some (Value (surfaceDark selected)))
    surfacePlaces.
Proof.
  intros Hmode Htheme Hgen Hcolour. unfold Branding.generateTheme in Hgen.
  rewrite Hmode, Htheme in Hgen.
  destruct (fontFamily selected) as [font|]; [|discriminate].
  injection Hgen as <-.
  assert (forall d, Js.coalesce (surfaceDark selected) d = surfaceDark selected)
    as Hco.
  { intros d. destruct (surfaceDark selected); try discriminate; reflexivity. }
  unfold surfacePlaces. repeat constructor; cbn; rewrite Hco; reflexivity.
Qed.

End BrandingFacts.

Section BrandingCase.
Import Branding.

Lemma upperAscii_lowerAscii (c : ascii) :
  upperAscii (lowerAscii c) = upperAscii c.
Proof.
  destruct c as [[] [] [] [] [] [] [] []]; vm_compute; reflexivity.
Qed.

Lemma asciiToUpperCase_asciiToLowerCase (s : string) :
  asciiToUpperCase (asciiToLowerCase s) = asciiToUpperCase s.
Proof.
  induction s as [|c s IH]; [reflexivity|].
  cbn [asciiToLowerCase asciiToUpperCase].
  rewrite upperAscii_lowerAscii, IH. reflexivity.
Qed.

(** No name in upper case is the key [activeTheme]. *)
Lemma asciiToUpperCase_not_activeTheme (s : string) :
  String.eqb (asciiToUpperCase s) "activeTheme" = false.
Proof.
  apply String.eqb_neq. destruct s as [|c s]; [discriminate|].
  cbn [asciiToUpperCase]. intros [= Hc _].
  destruct c as [[] [] [] [] [] [] [] []]; vm_compute in Hc; discriminate.
Qed.

(** Reading a property that [update] has just written. *)
Lemma get_update (k : string) (f : Js.val -> Js.val) (v : Js.val) :
  Js.get k (update k f v)
  = match v with
    | Js.Obj _ => f (Js.get k v)
    | _ => Js.Undefined
    end.
Proof.
  destruct v; try reflexivity.
  cbn [update Js.get]. rewrite lookup_set_eq. reflexivity.
Qed.

(** The preference and the theme of a branding whose active theme has
    been renamed. *)
Lemma preference_withActiveTheme (activeTheme : string) (branding : Js.val) :
  Js.get "preference" (Js.get "themePreference"
                         (withActiveTheme activeTheme branding))
  = update "theme" (update "activeTheme" (fun _ => Js.Str activeTheme))
      (Js.get "preference" (Js.get "themePreference" branding)).
Proof.
  unfold withActiveTheme. rewrite get_update.
  destruct branding; try reflexivity.
  rewrite get_update.
  destruct (Js.get "themePreference" (Js.Obj props)); reflexivity.
Qed.

Lemma theme_withActiveTheme (activeTheme : string) (branding : Js.val) :
  Js.get "theme"
    (Js.get "preference" (Js.get "themePreference"
                            (withActiveTheme activeTheme branding)))
  = update "activeTheme" (fun _ => Js.Str activeTheme)
      (Js.get "theme"
         (Js.get "preference" (Js.get "themePreference" branding))).
Proof.
  rewrite preference_withActiveTheme, get_update.
  destruct (Js.get "preference" (Js.get "themePreference" branding));
    reflexivity.
Qed.

Lemma nullish_update (k : string) (f : Js.val -> Js.val) (v : Js.val) :
  nullish (update k f v) = nullish v.
Proof. destruct v; reflexivity. Qed.

(** X24: for names in ASCII, on which the two case functions are the
    ones above, the name of the active theme is matched whatever its
    case: take any branding and give its active theme two names that
    differ in case only (say [dark] and [DARK]); the two brandings
    give the same theme, read from the entry stored under the name in
    upper case. *)
Theorem generateTheme_case_insensitive
    (activeTheme activeTheme' : string) (branding : Js.val)
    (direction : string) :
  isAscii activeTheme = true ->
  isAscii activeTheme' = true ->
  asciiToUpperCase activeTheme = asciiToUpperCase activeTheme' ->
  Branding.generateTheme asciiToLowerCase asciiToUpperCase
    (withActiveTheme activeTheme branding) direction
  = Branding.generateTheme asciiToLowerCase asciiToUpperCase
      (withActiveTheme activeTheme' branding) direction.
Proof.
  intros _ _ Hsame.
  unfold Branding.generateTheme, Branding.mode, Branding.brandingTheme.
  rewrite !theme_withActiveTheme, !preference_withActiveTheme.
  rewrite !nullish_update.
  set (preference := Js.get "preference" (Js.get "themePreference" branding)).
  set (theme := Js.get "theme" preference).
  destruct theme as [| |b|a|l|props] eqn:Htheme; try reflexivity.
  cbn [update nullish Js.get].
  rewrite !lookup_set_eq. cbn [from_option Datatypes.id].
  rewrite !asciiToUpperCase_asciiToLowerCase.
  assert (forall name, "activeTheme" <> asciiToUpperCase name) as Hkey.
  { intros name Heq.
    pose proof (asciiToUpperCase_not_activeTheme name) as Hne.
    rewrite <- Heq in Hne. discriminate Hne. }
  rewrite !lookup_set_ne by apply Hkey.
  rewrite Hsame. reflexivity.
Qed.

End BrandingCase.

(* ===================================================================== *)
(** * The properties above on concrete inputs *)
(* ===================================================================== *)

(** A free domain under a configuration without patterns. *)
Lemma validateDomain_fails_closed_witness :
  fst (Async.settle AddTenantForm.backend_free
         (AddTenantForm.validateDomain (fun k => k) (fun _ _ => true)
            {| AddTenantForm.tenantDomainRegex := None;
               AddTenantForm.tenantDomainIllegalCharactersRegex := None;
               AddTenantForm.isTenantDomainDotExtensionMandatory := Some true |}
            "acme.com"))
  = Async.Fulfilled None.
Proof.
  exact (validateDomain_fails_closed (fun k => k) (fun _ _ => true)
           {| AddTenantForm.tenantDomainRegex := None;
              AddTenantForm.tenantDomainIllegalCharactersRegex := None;
              AddTenantForm.isTenantDomainDotExtensionMandatory := Some true |}
           "acme.com" AddTenantForm.backend_free
           ltac:(discriminate) eq_refl).
Defined.

(** A value that the pattern of the deployment does not match. *)
Lemma validateDomain_local_failure_witness :
  exists key,
    AddTenantForm.validateDomain (fun k => k) (fun _ _ => false)
      {| AddTenantForm.tenantDomainRegex := Some "^[a-z0-9.-]+$";
         AddTenantForm.tenantDomainIllegalCharactersRegex := None;
         AddTenantForm.isTenantDomainDotExtensionMandatory := None |}
      "My_Org"
    = Async.Resolve (Some key)
    /\ In key
         [ "tenants:common.form.fields.domain.validations.domainMandatoryExtension";
           "tenants:common.form.fields.domain.validations.domainInvalidPattern";
           "tenants:common.form.fields.domain.validations.domainStartingWithDot";
           "tenants:common.form.fields.domain.validations.domainInvalidCharPattern" ].
Proof.
  exact (validateDomain_local_failure (fun k => k) (fun _ _ => false)
           {| AddTenantForm.tenantDomainRegex := Some "^[a-z0-9.-]+$";
              AddTenantForm.tenantDomainIllegalCharactersRegex := None;
              AddTenantForm.isTenantDomainDotExtensionMandatory := None |}
           "My_Org" ltac:(discriminate) eq_refl).
Defined.

(** A username that is an email address and matches the pattern. *)
Lemma validateUsername_settled_witness :
  Async.settle AddTenantForm.backend_free
    (AddTenantForm.validateUsernameAgainstUserstoreRegExp (fun k => k)
       AddTenantForm.sampleEmailCheck (fun _ _ => true) "ann@acme.com")
  = (Async.Fulfilled None,
     [Async.Invoked AddTenantForm.getUsertoreUsernameValidationPattern]).
Proof.
  exact (validateUsername_settled (fun k => k) AddTenantForm.sampleEmailCheck
           (fun _ _ => true) "ann@acme.com" AddTenantForm.backend_free
           ltac:(discriminate)).
Defined.

(** The sample page, then a scroll to the end of the options. *)
Lemma loadMore_after_page_witness :
  let s' :=
    AddOrganizationDiscoveryDomains.runLoader (fun k => k)
      [ AddOrganizationDiscoveryDomains.ResponseChanged
          (Some AddOrganizationDiscoveryDomains.samplePage) false false;
        AddOrganizationDiscoveryDomains.ScrolledToEnd ]
      AddOrganizationDiscoveryDomains.initialState in
  AddOrganizationDiscoveryDomains.fetchRequest s'
  = Some (Js.Str "", 15, Js.Str "Q1VSU09SMQ")
  /\ map AddOrganizationDiscoveryDomains.name
       (AddOrganizationDiscoveryDomains.organizations s')
     = ["Acme"; "Acme Labs"].
Proof.
  destruct (loadMore_after_page (fun k => k)
              AddOrganizationDiscoveryDomains.samplePage
              (Js.Str "Q1VSU09SMQ")
              AddOrganizationDiscoveryDomains.initialState
              eq_refl eq_refl) as [Hrequest Horgs].
  cbn zeta. rewrite Hrequest, Horgs. split; reflexivity.
Defined.

(** The last page, then a scroll to the end of the options. *)
Lemma loadMore_exhausted_witness :
  let s1 :=
    AddOrganizationDiscoveryDomains.runLoader (fun k => k)
      [ AddOrganizationDiscoveryDomains.ResponseChanged
          (Some AddOrganizationDiscoveryDomains.sampleLastPage) false false ]
      AddOrganizationDiscoveryDomains.initialState in
  AddOrganizationDiscoveryDomains.runLoader (fun k => k)
    [AddOrganizationDiscoveryDomains.ScrolledToEnd] s1 = s1
  /\ AddOrganizationDiscoveryDomains.fetchRequest s1 = None
  /\ AddOrganizationDiscoveryDomains.hasMoreOrganizations s1 = false.
Proof.
  exact (loadMore_exhausted (fun k => k)
           AddOrganizationDiscoveryDomains.sampleLastPage
           AddOrganizationDiscoveryDomains.initialState I).
Defined.

(** The value of the email field after the second of two entries has
    been removed: the first one is checked again, and goes as well
    when it is taken by now. *)
Lemma onChange_settled_witness :
  let s :=
    AddOrganizationDiscoveryDomains.reached
      (AddOrganizationDiscoveryDomains.array_new ["example.com"]
         AddOrganizationDiscoveryDomains.initialState) in
  let outcome :=
    AddOrganizationDiscoveryDomains.settle
      AddOrganizationDiscoveryDomains.backend_taken
      (AddOrganizationDiscoveryDomains.onChange (fun k => k)
         AddOrganizationDiscoveryDomains.sampleDomainCheck 1%nat s) in
  AddOrganizationDiscoveryDomains.arrays s !! 1%nat = Some ["example.com"]
  /\ AddOrganizationDiscoveryDomains.emailDomainList outcome.1.1 = []
  /\ outcome.2
     = [Async.Invoked
          (AddOrganizationDiscoveryDomains.checkEmailDomainAvailable
             (Js.Str "example.com"))].
Proof.
  intros s outcome.
  assert (AddOrganizationDiscoveryDomains.arrays s !! 1%nat
          = Some ["example.com"]) as Hvalue by (vm_compute; reflexivity).
  split; [exact Hvalue|].
  destruct (onChange_settled (fun k => k)
              AddOrganizationDiscoveryDomains.sampleDomainCheck
              AddOrganizationDiscoveryDomains.backend_taken
              1%nat ["example.com"] s Hvalue) as (_ & Hlist & Hcalls).
  split; [exact Hlist | exact Hcalls].
Defined.

(** An entry without a dot. *)
Lemma addEntry_format_refused_witness :
  let outcome :=
    AddOrganizationDiscoveryDomains.settle
      AddOrganizationDiscoveryDomains.backend_free
      (AddOrganizationDiscoveryDomains.addEntry (fun k => k)
         AddOrganizationDiscoveryDomains.sampleDomainCheck "not-a-domain"
         AddOrganizationDiscoveryDomains.initialState) in
  AddOrganizationDiscoveryDomains.emailDomainList outcome.1.1
  = AddOrganizationDiscoveryDomains.emailDomainList
      AddOrganizationDiscoveryDomains.initialState
  /\ AddOrganizationDiscoveryDomains.isEmailDomainDataError outcome.1.1 = true
  /\ AddOrganizationDiscoveryDomains.isEmailDomainAvailableError outcome.1.1
     = false
  /\ AddOrganizationDiscoveryDomains.alerts outcome.1.1 = []
  /\ outcome.2 = [].
Proof.
  exact (addEntry_format_refused (fun k => k)
           AddOrganizationDiscoveryDomains.sampleDomainCheck
           AddOrganizationDiscoveryDomains.backend_free "not-a-domain"
           AddOrganizationDiscoveryDomains.initialState eq_refl).
Defined.

(** A domain that is taken. *)
Lemma addEntry_unavailable_refused_witness :
  let outcome :=
    AddOrganizationDiscoveryDomains.settle
      AddOrganizationDiscoveryDomains.backend_taken
      (AddOrganizationDiscoveryDomains.addEntry (fun k => k)
         AddOrganizationDiscoveryDomains.sampleDomainCheck "example.com"
         AddOrganizationDiscoveryDomains.initialState) in
  AddOrganizationDiscoveryDomains.emailDomainList outcome.1.1
  = AddOrganizationDiscoveryDomains.emailDomainList
      AddOrganizationDiscoveryDomains.initialState
  /\ AddOrganizationDiscoveryDomains.isEmailDomainAvailableError outcome.1.1
     = true
  /\ AddOrganizationDiscoveryDomains.isEmailDomainDataError outcome.1.1 = false
  /\ AddOrganizationDiscoveryDomains.alerts outcome.1.1 = []
  /\ outcome.2
     = [Async.Invoked
          (AddOrganizationDiscoveryDomains.checkEmailDomainAvailable
             (Js.Str "example.com"))].
Proof.
  exact (addEntry_unavailable_refused (fun k => k)
           AddOrganizationDiscoveryDomains.sampleDomainCheck
           AddOrganizationDiscoveryDomains.backend_taken "example.com"
           (Js.Obj [("available", Js.Bool false)])
           AddOrganizationDiscoveryDomains.initialState
           eq_refl eq_refl eq_refl).
Defined.

(** A taken domain, and a free one added before the answer about the
    first is there. *)
Lemma addTwoOverlapping_list_witness :
  AddOrganizationDiscoveryDomains.emailDomainList
    (AddOrganizationDiscoveryDomains.addTwoOverlapping (fun k => k)
       AddOrganizationDiscoveryDomains.sampleDomainCheck
       (AddOrganizationDiscoveryDomains.backend_but "taken.com")
       "taken.com" "free.org" AddOrganizationDiscoveryDomains.initialState)
  = ["taken.com"; "free.org"]
  /\ AddOrganizationDiscoveryDomains.emailDomainList
       (AddOrganizationDiscoveryDomains.addTwoInTurn (fun k => k)
          AddOrganizationDiscoveryDomains.sampleDomainCheck
          (AddOrganizationDiscoveryDomains.backend_but "taken.com")
          "taken.com" "free.org" AddOrganizationDiscoveryDomains.initialState)
     = ["free.org"].
Proof.
  exact (addTwoOverlapping_list (fun k => k)
           AddOrganizationDiscoveryDomains.sampleDomainCheck
           (AddOrganizationDiscoveryDomains.backend_but "taken.com")
           "taken.com" "free.org" AddOrganizationDiscoveryDomains.initialState
           eq_refl eq_refl).
Defined.

(** A submission for [Acme] once the sample page has arrived. *)
Lemma handleSubmit_settled_witness :
  let s :=
    AddOrganizationDiscoveryDomains.withPage
      AddOrganizationDiscoveryDomains.samplePage
      AddOrganizationDiscoveryDomains.initialState in
  let outcome :=
    AddOrganizationDiscoveryDomains.settle
      AddOrganizationDiscoveryDomains.backend_down
      (AddOrganizationDiscoveryDomains.handleSubmit (fun k => k)
         (Js.Obj [("organizationName", Js.Str "Acme")]) s) in
  outcome.2
  = [Async.Invoked
       (AddOrganizationDiscoveryDomains.addOrganizationEmailDomain
          "10084a8d" [])]
  /\ AddOrganizationDiscoveryDomains.history outcome.1.1 = []
  /\ map AddOrganizationDiscoveryDomains.level
       (AddOrganizationDiscoveryDomains.alerts outcome.1.1)
     = [AddOrganizationDiscoveryDomains.ERROR].
Proof.
  intros s outcome.
  destruct (handleSubmit_settled (fun k => k)
              AddOrganizationDiscoveryDomains.backend_down
              (Js.Obj [("organizationName", Js.Str "Acme")])
              {| AddOrganizationDiscoveryDomains.id := "10084a8d";
                 AddOrganizationDiscoveryDomains.name := "Acme" |}
              s eq_refl) as (Hcalls & _ & _ & _ & Halerts & Hhistory).
  split; [exact Hcalls|]. split; [exact Hhistory|].
  fold outcome in Halerts. rewrite Halerts. reflexivity.
Defined.

(** Two organizations named [Acme], the first one configured
    already. *)
Lemma handleSubmit_resolves_hidden_witness :
  let s :=
    AddOrganizationDiscoveryDomains.withPage
      AddOrganizationDiscoveryDomains.samplePageOfNamesakes
      AddOrganizationDiscoveryDomains.initialState in
  let configured :=
    [ {| AddOrganizationDiscoveryDomains.organizationId := "10084a8d" |} ] in
  AddOrganizationDiscoveryDomains.organizationNameOptions
    (Some (Some configured)) s = ["Acme"]
  /\ map AddOrganizationDiscoveryDomains.id
       (AddOrganizationDiscoveryDomains.filteredDiscoverableOrganizations
          (Some (Some configured))
          (AddOrganizationDiscoveryDomains.organizations s))
     = ["c524c30a"]
  /\ exists k,
       AddOrganizationDiscoveryDomains.handleSubmit (fun k => k)
         (Js.Obj [("organizationName", Js.Str "Acme")]) s
       = AddOrganizationDiscoveryDomains.Susp
           (AddOrganizationDiscoveryDomains.addOrganizationEmailDomain
              "10084a8d" []) s k.
Proof.
  intros s configured.
  destruct (handleSubmit_resolves_hidden (fun k => k) configured
              {| AddOrganizationDiscoveryDomains.id := "10084a8d";
                 AddOrganizationDiscoveryDomains.name := "Acme" |}
              {| AddOrganizationDiscoveryDomains.id := "c524c30a";
                 AddOrganizationDiscoveryDomains.name := "Acme" |}
              [ {| AddOrganizationDiscoveryDomains.id := "c524c30a";
                   AddOrganizationDiscoveryDomains.name := "Acme" |} ]
              s eq_refl) as (_ & _ & Hsubmit).
  - left. reflexivity.
  - reflexivity.
  - apply Exists_cons_hd. reflexivity.
  - repeat constructor. discriminate.
  - split; [reflexivity|]. split; [reflexivity|]. exact Hsubmit.
Defined.

(** A branding whose active theme has no entry. *)
Lemma generateTheme_defaults_witness :
  Branding.generateTheme Branding.asciiToLowerCase Branding.asciiToUpperCase
    (Branding.brandingWith "dark" "LIGHT" Branding.sampleTheme) "ltr"
  = Branding.generateTheme Branding.asciiToLowerCase Branding.asciiToUpperCase
      Js.Undefined "ltr".
Proof.
  exact (generateTheme_defaults
           Branding.asciiToLowerCase Branding.asciiToUpperCase
           (Branding.brandingWith "dark" "LIGHT" Branding.sampleTheme) "ltr"
           "dark" Js.Undefined eq_refl eq_refl eq_refl).
Defined.

(** The sample theme, active. *)
Lemma generateTheme_primary_witness :
  Forall (fun path =>
            Branding.at_path path
              (Branding.themeOptions Branding.sampleTheme (Js.Str "Inter") "ltr")
            = Some (Branding.Value (Js.Str "#0055aa")))
    Branding.primaryPlaces.
Proof.
  exact (generateTheme_primary
           Branding.asciiToLowerCase Branding.asciiToUpperCase
           (Branding.brandingWith "light" "LIGHT" Branding.sampleTheme) "ltr"
           "light" Branding.sampleTheme
           (Branding.themeOptions Branding.sampleTheme (Js.Str "Inter") "ltr")
           eq_refl eq_refl eq_refl eq_refl).
Defined.

Lemma generateTheme_surface_witness :
  Forall (fun path =>
            Branding.at_path path
              (Branding.themeOptions Branding.sampleTheme (Js.Str "Inter") "ltr")
            = Some (Branding.Value (Js.Str "#eeeeee")))
    Branding.surfacePlaces.
Proof.
  exact (generateTheme_surface
           Branding.asciiToLowerCase Branding.asciiToUpperCase
           (Branding.brandingWith "light" "LIGHT" Branding.sampleTheme) "ltr"
           "light" Branding.sampleTheme
           (Branding.themeOptions Branding.sampleTheme (Js.Str "Inter") "ltr")
           eq_refl eq_refl eq_refl eq_refl).
Defined.

(** [dark] and [DARK] in a branding with two themes. *)
Lemma generateTheme_case_insensitive_witness :
  let branding :=
    Js.Obj
      [ ("themePreference",
          Js.Obj
            [ ("preference",
                Js.Obj
                  [ ("theme",
                      Js.Obj [ ("activeTheme", Js.Str "LIGHT");
                               ("LIGHT", Js.Obj []);
                               ("DARK", Branding.sampleTheme) ]) ]) ]) ] in
  Branding.generateTheme Branding.asciiToLowerCase Branding.asciiToUpperCase
    (Branding.withActiveTheme "dark" branding) "rtl"
  = Branding.generateTheme Branding.asciiToLowerCase Branding.asciiToUpperCase
      (Branding.withActiveTheme "DARK" branding) "rtl".
Proof.
  intros branding.
  exact (generateTheme_case_insensitive "dark" "DARK" branding "rtl"
           eq_refl eq_refl eq_refl).
Defined.

(** What makes [generateTheme] throw. *)
Example generateTheme_throws :
  Branding.generateTheme Branding.asciiToLowerCase Branding.asciiToUpperCase
    (Js.Obj [("themePreference", Js.Obj [("preference", Js.Obj [])])]) "ltr"
  = None
  /\ Branding.generateTheme Branding.asciiToLowerCase Branding.asciiToUpperCase
       (Js.Obj [("themePreference",
                 Js.Obj [("preference",
                          Js.Obj [("theme", Js.Obj [("LIGHT", Branding.sampleTheme)])])])])
       "ltr"
     = None
  /\ Branding.generateTheme Branding.asciiToLowerCase Branding.asciiToUpperCase
       (Branding.brandingWith "light" "LIGHT"
          (Js.Obj [("colors",
                    Js.Obj [("primary", Js.Obj [("main", Js.Str "#0055aa")])])]))
       "ltr"
     = None
  /\ Branding.at_path ["typography"; "fontFamily"]
       (default (Branding.Number 0)
          (Branding.generateTheme Branding.asciiToLowerCase Branding.asciiToUpperCase
             (Branding.brandingWith "light" "LIGHT" Branding.sampleTheme) "ltr"))
     = Some (Branding.Value (Js.Str "Inter")).
Proof. repeat split; reflexivity. Qed.

(** The answer of a failed request is kept: the backend cannot be
    reached when [acme.com] is first asked, and the domain stays
    unavailable, with no further request, once the backend is back. *)
Example validateDomain_memoized_fault_kept :
  let config :=
    {| AddTenantForm.tenantDomainRegex := None;
       AddTenantForm.tenantDomainIllegalCharactersRegex := None;
       AddTenantForm.isTenantDomainDotExtensionMandatory := Some true |} in
  let first :=
    AddTenantForm.validateDomain_memoized (fun k => k) (fun _ _ => true)
      config AddTenantForm.backend_down ∅ "acme.com" in
  let again :=
    AddTenantForm.validateDomain_memoized (fun k => k) (fun _ _ => true)
      config AddTenantForm.backend_free first.2 "acme.com" in
  first.1
  = (Async.Fulfilled
       (Some "tenants:common.form.fields.domain.validations.domainUnavailable"),
     [Async.Invoked (AddTenantForm.getTenantDomainAvailability "acme.com")])
  /\ again.1
     = (Async.Fulfilled
          (Some "tenants:common.form.fields.domain.validations.domainUnavailable"),
        []).
Proof. vm_compute. split; reflexivity. Qed.

(** The form is handed no promise, so its [submitting] flag is down
    whatever the submission is doing. *)
Lemma onSubmit_not_submitting (t : string -> string) (values : Js.val)
    (s : AddOrganizationDiscoveryDomains.State) :
  AddOrganizationDiscoveryDomains.formSubmitting
    (AddOrganizationDiscoveryDomains.onSubmit t values s).2 = false.
Proof. reflexivity. Qed.

(** C8 on the code: with [example.com] in the list and [Acme] among
    the accumulated organizations, the user submits the form for
    [Acme].  The request to add the email domains is in flight, yet
    the form has been handed no promise, its [submitting] flag is
    down, and the button is rendered enabled and not loading; a second
    click starts the same request a second time. *)
Theorem submit_in_flight_button_enabled :
  let s :=
    AddOrganizationDiscoveryDomains.withPage
      AddOrganizationDiscoveryDomains.samplePage
      (AddOrganizationDiscoveryDomains.settle
         AddOrganizationDiscoveryDomains.backend_free
         (AddOrganizationDiscoveryDomains.addEntry (fun k => k)
            AddOrganizationDiscoveryDomains.sampleDomainCheck "example.com"
            AddOrganizationDiscoveryDomains.initialState)).1.1 in
  let values := Js.Obj [("organizationName", Js.Str "Acme")] in
  let request :=
    AddOrganizationDiscoveryDomains.addOrganizationEmailDomain
      "10084a8d" ["example.com"] in
  let started := AddOrganizationDiscoveryDomains.onSubmit (fun k => k) values s in
  let inFlight := AddOrganizationDiscoveryDomains.reached started.1 in
  (exists k, started.1 = AddOrganizationDiscoveryDomains.Susp request s k)
  /\ AddOrganizationDiscoveryDomains.formSubmitting started.2 = false
  /\ AddOrganizationDiscoveryDomains.submitButton false
       (AddOrganizationDiscoveryDomains.formSubmitting started.2)
       values inFlight
     = Some {| AddOrganizationDiscoveryDomains.disabled := false;
               AddOrganizationDiscoveryDomains.loading := false |}
  /\ exists k,
       (AddOrganizationDiscoveryDomains.onSubmit (fun k => k) values inFlight).1
       = AddOrganizationDiscoveryDomains.Susp request inFlight k.
Proof.
  cbn zeta. split; [|split; [|split]].
  - eexists. vm_compute. reflexivity.
  - reflexivity.
  - vm_compute. reflexivity.
  - eexists. vm_compute. reflexivity.
Qed.
